(** * Medium article collector: harvesting and extraction pipeline

    A shallow embedding of [collector.py] and [parser.py].  Python strings are
    modelled as [string]; one [ascii] stands for one code point below 256.
    Sets of references are [gset string].  What the browser shows is supplied
    from outside: the collector reads a feed of snapshots, the extractor a
    world of rendered pages. *)

From Stdlib Require Import ZArith String Ascii List Bool Lia DecimalString.
From stdpp Require Import base strings gmap sets list.

Open Scope string_scope.

(** ** Python string primitives *)

Module Py.

(** Upper-case code points below 256: [A-Z], and the Latin-1 capitals
    U+00C0..U+00DE except the multiplication sign U+00D7. *)
Definition is_upper (c : ascii) : bool :=
  let n := nat_of_ascii c in
  ((65 <=? n) && (n <=? 90))%nat
  || ((192 <=? n) && (n <=? 222) && negb (n =? 215))%nat.

Definition lower_char (c : ascii) : ascii :=
  if is_upper c then ascii_of_nat (nat_of_ascii c + 32) else c.

(** [s.lower()] *)
Fixpoint lower (s : string) : string :=
  match s with
  | EmptyString => EmptyString
  | String c r => String (lower_char c) (lower r)
  end.

(** [s.replace(old, new)] for one-character [old] and [new]. *)
Fixpoint replace (old new : ascii) (s : string) : string :=
  match s with
  | EmptyString => EmptyString
  | String c r => String (if Ascii.eqb c old then new else c) (replace old new r)
  end.

(** [s.replace(old, "")] for a one-character [old]. *)
Fixpoint remove (old : ascii) (s : string) : string :=
  match s with
  | EmptyString => EmptyString
  | String c r => if Ascii.eqb c old then remove old r else String c (remove old r)
  end.

(** [s.startswith(p)] *)
Fixpoint startswith (s p : string) {struct p} : bool :=
  match p with
  | EmptyString => true
  | String c p' =>
      match s with
      | EmptyString => false
      | String d s' => Ascii.eqb c d && startswith s' p'
      end
  end.

(** [needle in hay] *)
Fixpoint contains (needle hay : string) : bool :=
  startswith hay needle
  || match hay with
     | EmptyString => false
     | String _ r => contains needle r
     end.

(** [s.split(sep)[0]] for a one-character [sep]: the text before the first
    [sep], the whole of [s] when there is none. *)
Fixpoint split_head (sep : ascii) (s : string) : string :=
  match s with
  | EmptyString => EmptyString
  | String c r => if Ascii.eqb c sep then EmptyString else String c (split_head sep r)
  end.

(** White space below 256 as [str.strip] sees it. *)
Definition is_space (c : ascii) : bool :=
  let n := nat_of_ascii c in
  ((9 <=? n) && (n <=? 13) || (28 <=? n) && (n <=? 32)
   || (n =? 133) || (n =? 160))%nat.

Fixpoint lstrip (s : string) : string :=
  match s with
  | EmptyString => EmptyString
  | String c r => if is_space c then lstrip r else s
  end.

Fixpoint rstrip (s : string) : string :=
  match s with
  | EmptyString => EmptyString
  | String c r =>
      match rstrip r with
      | EmptyString => if is_space c then EmptyString else String c EmptyString
      | r' => String c r'
      end
  end.

(** [s.strip()] *)
Definition strip (s : string) : string := rstrip (lstrip s).

(** [str(n)] for an [int]. *)
Definition str (n : Z) : string := NilZero.string_of_int (Z.to_int n).

(** Truthiness of a [str]. *)
Definition truthy (s : string) : bool := negb (String.eqb s "").

End Py.

(** ** URL Classifier ([collector.py]) *)

Definition newline : ascii := "010"%char.

Definition is_hex_lower (c : ascii) : bool :=
  let n := nat_of_ascii c in
  ((48 <=? n) && (n <=? 57) || (97 <=? n) && (n <=? 102))%nat.

(** Consume exactly [n] characters of the class [[a-f0-9]]. *)
Fixpoint take_hex (n : nat) (s : string) : option string :=
  match n with
  | O => Some s
  | S n' =>
      match s with
      | String c r => if is_hex_lower c then take_hex n' r else None
      | EmptyString => None
      end
  end.

(** The anchor [$] without [re.MULTILINE]: at the end of the string, or just
    before a newline that is the last character. *)
Definition at_dollar (s : string) : bool :=
  String.eqb s "" || String.eqb s (String newline "").

(** The pattern [-[a-f0-9]{8,12}$] tried at the start of [s]; the bounded
    repetition is greedy, so twelve is tried first. *)
Definition hex_suffix_here (s : string) : bool :=
  match s with
  | String "-" r =>
      existsb (fun k => match take_hex k r with
                        | Some rest => at_dollar rest
                        | None => false
                        end)
              [12; 11; 10; 9; 8]%nat
  | _ => false
  end.

(** [re.search(r"-[a-f0-9]{8,12}$", s)] is not [None]. *)
Fixpoint re_search_hex_suffix (s : string) : bool :=
  hex_suffix_here s
  || match s with
     | EmptyString => false
     | String _ r => re_search_hex_suffix r
     end.

Definition bad : list string :=
  ["/tag/"; "/search"; "/me/"; "/about"; "/followers"; "/lists"; "/topics";
   "?source="; "/archive"; "signin"; "signup"].

Definition _is_article_url (url : string) : bool :=
  if negb (Py.truthy url) then false
  else if existsb (fun b => Py.contains b (Py.lower url)) bad then false
  else if Py.contains "/@" url && (40 <? String.length url)%nat then true
  else if re_search_hex_suffix url then true
  else false.

Definition _normalize_url (url : string) : string :=
  Py.split_head "#" (Py.split_head "?" url).


(** ** Incremental Collector ([collector.py]) *)

Definition MAX_SCROLLS : nat := 150.
Definition YEAR_CUTOFF : Z := 2025.

(** What the renderer shows during one scroll iteration: the [href] of every
    anchor of the document, in document order, and [page.url]. *)
Record Snapshot := {
  snap_hrefs : list string;
  snap_url : string
}.

(** The session bound to one feed endpoint.  [landing] is the document title
    read after [page.goto], [None] when navigation raises; [scrolled i] is the
    snapshot of scroll iteration [i] (counted from 1), [None] when the scroll
    or the script evaluation of that iteration raises. *)
Record Feed := {
  landing : option string;
  scrolled : nat -> option Snapshot
}.

(** The body of the [for href in hrefs] loop. *)
Definition add_href (valid_urls : gset string) (href : string) : gset string :=
  if Py.truthy href && _is_article_url href
  then valid_urls ∪ {[ _normalize_url href ]}
  else valid_urls.

(** Returns [(valid_urls, found_old_content)]; the second component is
    initialised to [False] and never assigned again. *)
Definition _extract_article_links (hrefs : list string) : gset string * bool :=
  let valid_urls := fold_left add_href hrefs ∅ in
  let found_old_content := false in
  (valid_urls, found_old_content).

Record LoopState := {
  scroll_count : nat;
  collected_urls : gset string;
  no_new_content_count : nat;
  old_content_found : bool
}.

(** Why a collection run ended. *)
Inductive Stop :=
| StopOld      (* old content on the chronological feed: [break] *)
| StopStale    (* six scrolls without new items: [break] *)
| StopBudget   (* the [while] condition failed *)
| StopFault.   (* an exception reached the [except] clause *)

#[global] Instance Stop_eq_dec : EqDecision Stop.
Proof. solve_decision. Defined.

Definition initial_state : LoopState :=
  {| scroll_count := 0; collected_urls := ∅;
     no_new_content_count := 0; old_content_found := false |}.

(** The [if len(new_urls) > len(collected_urls)] statement. *)
Definition merge_links (st : LoopState) (new_urls : gset string) : LoopState :=
  if (size (collected_urls st) <? size new_urls)%nat
  then {| scroll_count := scroll_count st;
          collected_urls := collected_urls st ∪ new_urls;
          no_new_content_count := 0;
          old_content_found := old_content_found st |}
  else {| scroll_count := scroll_count st;
          collected_urls := collected_urls st;
          no_new_content_count := S (no_new_content_count st);
          old_content_found := old_content_found st |}.

Definition is_chronological (url : string) : bool := Py.contains "/latest" url.

(** One pass through the loop body after the harvest has returned
    [(new_urls, found_old)]; [Some r] is a [break]. *)
Definition loop_body (st : LoopState) (harvest : gset string * bool)
    (url : string) : LoopState * option Stop :=
  let '(new_urls, found_old) := harvest in
  let st := merge_links st new_urls in
  if found_old && is_chronological url then
    ({| scroll_count := scroll_count st;
        collected_urls := collected_urls st;
        no_new_content_count := no_new_content_count st;
        old_content_found := true |}, Some StopOld)
  else if (6 <=? no_new_content_count st)%nat then (st, Some StopStale)
  else (st, None).

(** The [while scroll_count < max_scrolls and not old_content_found] loop;
    [fuel] bounds the number of iterations the model unfolds. *)
Fixpoint scroll_loop (max_scrolls : nat) (feed : Feed) (fuel : nat)
    (st : LoopState) : option (LoopState * Stop) :=
  match fuel with
  | O => None
  | S fuel' =>
      if (scroll_count st <? max_scrolls)%nat && negb (old_content_found st) then
        let st := {| scroll_count := S (scroll_count st);
                     collected_urls := collected_urls st;
                     no_new_content_count := no_new_content_count st;
                     old_content_found := old_content_found st |} in
        match scrolled feed (scroll_count st) with
        | None => Some (st, StopFault)
        | Some snap =>
            match loop_body st (_extract_article_links (snap_hrefs snap))
                            (snap_url snap) with
            | (st', Some r) => Some (st', r)
            | (st', None) => scroll_loop max_scrolls feed fuel' st'
            end
        end
      else Some (st, if old_content_found st then StopOld else StopBudget)
  end.

(** A run with the iteration cap as a parameter. *)
Definition collect_with_cap (max_scrolls : nat) (feed : Feed)
    : option (LoopState * Stop) :=
  match landing feed with
  | None => Some (initial_state, StopFault)
  | Some _title => scroll_loop max_scrolls feed (S max_scrolls) initial_state
  end.

(** [collect_links_from_tag]: the final state holds the returned set. *)
Definition collect_links_from_tag (feed : Feed) : option (LoopState * Stop) :=
  collect_with_cap MAX_SCROLLS feed.

(** The accumulator once at most [k] iterations have run. *)
Definition collected_after (k : nat) (feed : Feed) : gset string :=
  match collect_with_cap k feed with
  | Some (st, _) => collected_urls st
  | None => ∅
  end.

(** ** Canonical records ([parser.py]) *)

Record Article := {
  titulo : string;
  autor : string;
  data_publicacao : string;
  tags : list string;
  tempo_leitura : string;
  resumo : string;
  fonte : string;
  url : string
}.

Definition ARTICLE_TEMPLATE : Article :=
  {| titulo := ""; autor := ""; data_publicacao := ""; tags := [];
     tempo_leitura := ""; resumo := ""; fonte := "medium"; url := "" |}.

(** ** Date Normalizer ([parser.py]) *)

Record date := mkdate { year : nat; month : nat; day : nat }.

(** A decimal numeral padded with zeros on the left up to [width]. *)
Fixpoint zeros (n : nat) : string :=
  match n with
  | O => ""
  | S n' => String "0" (zeros n')
  end.

Definition zero_padded (width n : nat) : string :=
  let digits := NilZero.string_of_uint (Nat.to_uint n) in
  zeros (width - String.length digits) ++ digits.

(** [dt.strftime("%Y-%m-%d")] *)
Definition strftime_ymd (dt : date) : string :=
  zero_padded 4 (year dt) ++ "-" ++ zero_padded 2 (month dt)
  ++ "-" ++ zero_padded 2 (day dt).

Definition formats : list string :=
  ["%Y-%m-%d"; "%d/%m/%Y"; "%m/%d/%Y"; "%B %d, %Y"; "%b %d, %Y"].

Section DateNormalizer.

(** The two parsers of the [datetime] module; [None] stands for
    [ValueError]. *)
Variable fromisoformat : string -> option date.
Variable strptime : string -> string -> option date.

(** The [for fmt in formats] loop and the final [return date_str]. *)
Fixpoint try_formats (date_str : string) (fmts : list string) : string :=
  match fmts with
  | [] => date_str
  | fmt :: rest =>
      match strptime (Py.strip date_str) fmt with
      | Some dt => strftime_ymd dt
      | None => try_formats date_str rest
      end
  end.

Definition _normalize_date (date_str : string) : string :=
  if negb (Py.truthy date_str) then ""
  else
    let date_str :=
      if Py.contains "T" date_str then Py.split_head "T" date_str
      else date_str in
    let date_str := Py.split_head "+" date_str in
    match fromisoformat (Py.remove "Z" date_str) with
    | Some dt => strftime_ymd dt
    | None => try_formats date_str formats
    end.

End DateNormalizer.

(** ** Criteria Filter ([parser.py]) *)

(** [tag.lower().replace("-", " ").replace("_", " ")] *)
Definition normalize_tag (tag : string) : string :=
  Py.replace "_" " " (Py.replace "-" " " (Py.lower tag)).

(** [req in tag or tag in req] *)
Definition tag_matches (req tag : string) : bool :=
  Py.contains req tag || Py.contains tag req.

Definition all_tags_present (required_tags_lower article_tags_lower : list string)
    : bool :=
  forallb (fun req => existsb (fun tag => tag_matches req tag) article_tags_lower)
          required_tags_lower.

(** The [for article in articles] loop, with [filtered] as accumulator. *)
Fixpoint filter_loop (required_tags_lower : list string) (year : Z)
    (articles filtered : list Article) : list Article :=
  match articles with
  | [] => filtered
  | article :: rest =>
      let date := data_publicacao article in
      if negb (Py.truthy date) || negb (Py.startswith date (Py.str year))
      then filter_loop required_tags_lower year rest filtered
      else
        let article_tags_lower := map normalize_tag (tags article) in
        if all_tags_present required_tags_lower article_tags_lower
        then filter_loop required_tags_lower year rest (filtered ++ [article])%list
        else filter_loop required_tags_lower year rest filtered
  end.

Definition filter_articles_by_criteria (articles : list Article)
    (required_tags : list string) (year : Z) : list Article :=
  let required_tags_lower := map normalize_tag required_tags in
  filter_loop required_tags_lower year articles [].

(** ** Effects of the extraction stage

    A computation reads and changes the world (the network, the browser) and
    leaves a log of what it did, in order. *)

Definition Eff (World E A : Type) : Type := World -> A * list E * World.

Section Effects.
Context {World E : Type}.

Definition ret {A} (a : A) : Eff World E A := fun w => (a, [], w).

Definition bind {A B} (m : Eff World E A) (k : A -> Eff World E B)
    : Eff World E B :=
  fun w =>
    let '(a, log1, w1) := m w in
    let '(b, log2, w2) := k a w1 in
    (b, (log1 ++ log2)%list, w2).

(** Record one event. *)
Definition emit (e : E) : Eff World E unit := fun w => (tt, [e], w).

(** An operation on the world that leaves no event of its own. *)
Definition perform {A} (op : World -> A * World) : Eff World E A :=
  fun w => let '(a, w') := op w in (a, [], w').

End Effects.

Notation "'let*' x ':=' m 'in' k" := (bind m (fun x => k))
  (at level 10, x name, m at level 100, k at level 200).
Notation "m '>>' k" := (bind m (fun _ => k))
  (at level 90, right associativity).

(** ** Metadata Extractor ([parser.py]) *)

Inductive TierEvent :=
| EvGoto (target : string)     (* [page.goto(url, ...)] *)
| EvSettle (ms : N)            (* [asyncio.sleep(2)] *)
| EvJsonld                     (* [_extract_from_jsonld(page)] *)
| EvHtml                       (* [_extract_from_html(page)] *)
| EvClose.                     (* [browser.close()] in the [finally] clause *)

#[global] Instance TierEvent_eq_dec : EqDecision TierEvent.
Proof. solve_decision. Defined.

(** [not metadata or not metadata.get("titulo")]: a tier's dictionary is
    never empty, so [not metadata] holds for [None] only. *)
Definition needs_fallback (metadata : option Article) : bool :=
  match metadata with
  | None => true
  | Some m => negb (Py.truthy (titulo m))
  end.

(** [metadata["url"] = url; metadata["fonte"] = "medium"] *)
Definition stamp (target : string) (m : Article) : Article :=
  {| titulo := titulo m; autor := autor m;
     data_publicacao := data_publicacao m; tags := tags m;
     tempo_leitura := tempo_leitura m; resumo := resumo m;
     fonte := "medium"; url := target |}.

Section Extractor.
Context {World Page : Type}.

(** The renderer.  [goto] loads a reference and gives the rendered page,
    [None] when navigation raises.  The two tiers read a rendered page; each
    catches its own exceptions and then returns [None]. *)
Variable goto : string -> World -> option Page * World.
Variable _extract_from_jsonld : Page -> World -> option Article * World.
Variable _extract_from_html : Page -> World -> option Article * World.

Definition extract_article_metadata (target : string)
    : Eff World TierEvent (option Article) :=
  let* result :=
    (emit (EvGoto target) >>
     let* loaded := perform (goto target) in
     match loaded with
     | None => ret None                       (* [except Exception] *)
     | Some page =>
         emit (EvSettle 2000) >>
         emit EvJsonld >>
         let* metadata := perform (_extract_from_jsonld page) in
         let* metadata :=
           (if needs_fallback metadata
            then emit EvHtml >> perform (_extract_from_html page)
            else ret metadata) in
         ret (match metadata with
              | Some m => Some (stamp target m)
              | None => None
              end)
     end) in
  emit EvClose >>
  ret result.

(** ** Batch Orchestrator ([parser.py]) *)

Inductive BatchEvent :=
| EvExtract (target : string) (inner : list TierEvent)
            (result : option Article)  (* one call of the Extractor *)
| EvSleep (ms : N).                    (* [asyncio.sleep(delay_between)] *)

(** Run the Extractor as one event of the batch log. *)
Definition call_extractor (target : string)
    : Eff World BatchEvent (option Article) :=
  fun w =>
    let '(result, inner, w') := extract_article_metadata target w in
    (result, [EvExtract target inner result], w').

(** [metadata and metadata.get("titulo")] *)
Definition usable (metadata : option Article) : bool :=
  match metadata with
  | None => false
  | Some m => Py.truthy (titulo m)
  end.

(** The [for i, url in enumerate(urls, 1)] loop. *)
Fixpoint batch_loop (total : nat) (delay_between : N) (i : nat)
    (urls : list string) (results : list Article)
    : Eff World BatchEvent (list Article) :=
  match urls with
  | [] => ret results
  | target :: rest =>
      let* metadata := call_extractor target in
      let results :=
        match metadata with
        | Some m => if usable metadata then (results ++ [m])%list else results
        | None => results
        end in
      (if (i <? total)%nat then emit (EvSleep delay_between) else ret tt) >>
      batch_loop total delay_between (S i) rest results
  end.

Definition process_articles_batch (urls : list string) (delay_between : N)
    : Eff World BatchEvent (list Article) :=
  batch_loop (length urls) delay_between 1 urls [].

End Extractor.

(** ** A reference model of the [datetime] parsers

    Enough of the library to run the normalizer on date-only inputs:
    [fromisoformat] on the calendar form [YYYY-MM-DD], and [strptime] on
    formats made of [%Y], [%m], [%d], [%B], [%b], white space and punctuation,
    in the C locale.  [strptime] compiles the format to a regular expression,
    takes the first match in priority order, rejects unconverted trailing
    data and then builds the date. *)

Module RefDatetime.

Definition is_digit (c : ascii) : bool :=
  let n := nat_of_ascii c in ((48 <=? n) && (n <=? 57))%nat.

Definition digit_val (c : ascii) : nat := nat_of_ascii c - 48.

Definition is_leap (y : nat) : bool :=
  ((y mod 4 =? 0) && (negb (y mod 100 =? 0) || (y mod 400 =? 0)))%nat.

Definition days_in_month (y m : nat) : nat :=
  match m with
  | 2 => if is_leap y then 29 else 28
  | 4 | 6 | 9 | 11 => 30
  | _ => 31
  end.

(** The [datetime] constructor: [None] for a date that does not exist. *)
Definition make_date (y m d : nat) : option date :=
  if (N.of_nat y <=? 9999)%N
     && ((1 <=? y) && (1 <=? m) && (m <=? 12)
         && (1 <=? d) && (d <=? days_in_month y m))%nat
  then Some (mkdate y m d) else None.

(** Read exactly [n] decimal digits. *)
Fixpoint read_digits (n acc : nat) (s : string) : option (nat * string) :=
  match n with
  | O => Some (acc, s)
  | S n' =>
      match s with
      | String c r =>
          if is_digit c then read_digits n' (10 * acc + digit_val c) r else None
      | EmptyString => None
      end
  end.

Definition expect (c : ascii) (s : string) : option string :=
  match s with
  | String c' r => if Ascii.eqb c c' then Some r else None
  | EmptyString => None
  end.

Definition fromisoformat (s : string) : option date :=
  match read_digits 4 0 s with
  | Some (y, s1) =>
      match expect "-" s1 with
      | Some s2 =>
          match read_digits 2 0 s2 with
          | Some (m, s3) =>
              match expect "-" s3 with
              | Some s4 =>
                  match read_digits 2 0 s4 with
                  | Some (d, EmptyString) => make_date y m d
                  | _ => None
                  end
              | None => None
              end
          | None => None
          end
      | None => None
      end
  | None => None
  end.

Inductive Directive :=
| DYear | DMonth | DDay | DMonthName | DMonthAbbr | DSpaces | DLit (c : ascii).

(** Runs of white space in a format count once. *)
Fixpoint compile (after_space : bool) (fmt : string) : option (list Directive) :=
  match fmt with
  | EmptyString => Some []
  | String "%" (String c r) =>
      match (match c with
             | "Y" => Some DYear | "m" => Some DMonth | "d" => Some DDay
             | "B" => Some DMonthName | "b" => Some DMonthAbbr
             | "%" => Some (DLit "%")
             | _ => None
             end)%char with
      | Some d => option_map (cons d) (compile false r)
      | None => None
      end
  | String c r =>
      if Py.is_space c
      then if after_space then compile true r
           else option_map (cons DSpaces) (compile true r)
      else option_map (cons (DLit c)) (compile false r)
  end.

Record Fields := { f_year : nat; f_month : nat; f_day : nat }.

Definition month_names : list string :=
  ["january"; "february"; "march"; "april"; "may"; "june"; "july";
   "august"; "september"; "october"; "november"; "december"].

Definition month_abbrs : list string :=
  ["jan"; "feb"; "mar"; "apr"; "may"; "jun"; "jul"; "aug"; "sep"; "oct";
   "nov"; "dec"].

(** [s] without its first [n] characters. *)
Fixpoint drop_chars (n : nat) (s : string) : string :=
  match n, s with
  | S n', String _ r => drop_chars n' r
  | _, _ => s
  end.

(** The names that [s] starts with, letter case ignored, each with its month
    number. *)
Fixpoint names_at (names : list string) (number : nat) (s : string)
    : list (nat * string) :=
  match names with
  | [] => []
  | name :: rest =>
      (if Py.startswith (Py.lower s) name
       then [(number, drop_chars (String.length name) s)] else [])
      ++ names_at rest (S number) s
  end%list.

(** One or more white-space characters, the longest run first. *)
Fixpoint spaces_at (s : string) : list string :=
  match s with
  | String c r => if Py.is_space c then (spaces_at r ++ [r])%list else []
  | EmptyString => []
  end.

Definition in_range (lo hi : nat) (x : nat * string) : bool :=
  ((lo <=? fst x) && (fst x <=? hi))%nat.

Definition two_digits (lo hi : nat) (s : string) : list (nat * string) :=
  match read_digits 2 0 s with
  | Some x => if in_range lo hi x then [x] else []
  | None => []
  end.

Definition one_digit (s : string) : list (nat * string) :=
  match read_digits 1 0 s with
  | Some x => if in_range 1 9 x then [x] else []
  | None => []
  end.

(** The alternatives of one directive that match at the start of [s], in the
    order the regular expression tries them. *)
Definition candidates (d : Directive) (f : Fields) (s : string)
    : list (Fields * string) :=
  let set_year x := ({| f_year := fst x; f_month := f_month f; f_day := f_day f |}, snd x) in
  let set_month x := ({| f_year := f_year f; f_month := fst x; f_day := f_day f |}, snd x) in
  let set_day x := ({| f_year := f_year f; f_month := f_month f; f_day := fst x |}, snd x) in
  match d with
  | DYear =>
      match read_digits 4 0 s with Some x => [set_year x] | None => [] end
  | DMonth =>
      map set_month (two_digits 10 12 s ++ two_digits 1 9 s ++ one_digit s)%list
  | DDay =>
      map set_day (two_digits 30 31 s ++ two_digits 10 29 s ++ two_digits 1 9 s
                   ++ one_digit s
                   ++ match s with
                      | String " " r => one_digit r
                      | _ => []
                      end)%list
  | DMonthName => map set_month (names_at month_names 1 s)
  | DMonthAbbr => map set_month (names_at month_abbrs 1 s)
  | DSpaces => map (fun r => (f, r)) (spaces_at s)
  | DLit c =>
      match s with
      | String c' r =>
          if Ascii.eqb (Py.lower_char c) (Py.lower_char c') then [(f, r)] else []
      | EmptyString => []
      end
  end.

(** Backtracking match of the compiled format at the start of [s]. *)
Fixpoint run (ds : list Directive) (f : Fields) (s : string)
    : option (Fields * string) :=
  match ds with
  | [] => Some (f, s)
  | d :: ds' =>
      (fix first (cs : list (Fields * string)) : option (Fields * string) :=
         match cs with
         | [] => None
         | (f', s') :: cs' =>
             match run ds' f' s' with
             | Some r => Some r
             | None => first cs'
             end
         end) (candidates d f s)
  end.

Definition strptime (s fmt : string) : option date :=
  match compile false fmt with
  | Some ds =>
      match run ds {| f_year := 1900; f_month := 1; f_day := 1 |} s with
      | Some (f, EmptyString) => make_date (f_year f) (f_month f) (f_day f)
      | _ => None
      end
  | None => None
  end.

End RefDatetime.

Definition normalize_date_ref : string -> string :=
  _normalize_date RefDatetime.fromisoformat RefDatetime.strptime.


(** * Vocabulary of the specification *)

Definition is_substring (needle hay : string) : Prop :=
  exists pre post, hay = pre ++ needle ++ post.

Definition is_prefix (p s : string) : Prop := exists post, s = p ++ post.

Definition is_suffix (q s : string) : Prop := exists pre, s = pre ++ q.

(** Every character of [s] satisfies [P]. *)
Fixpoint all_chars (P : ascii -> bool) (s : string) : bool :=
  match s with
  | EmptyString => true
  | String c r => P c && all_chars P r
  end.

(** The last character of a string. *)
Fixpoint last_char (s : string) : option ascii :=
  match s with
  | EmptyString => None
  | String c EmptyString => Some c
  | String _ r => last_char r
  end.

(** [canonicalize] in the words of the specification: everything from the
    first [?] or [#] onward is dropped. *)
Fixpoint before_query_or_fragment (s : string) : string :=
  match s with
  | EmptyString => EmptyString
  | String c r =>
      if Ascii.eqb c "?" || Ascii.eqb c "#" then EmptyString
      else String c (before_query_or_fragment r)
  end.






(** The references harvested from one snapshot. *)
Definition harvested (snap : Snapshot) : gset string :=
  fst (_extract_article_links (snap_hrefs snap)).

(** The state at the head of the loop once [scroll_count] is incremented. *)
Definition bump (st : LoopState) : LoopState :=
  {| scroll_count := S (scroll_count st);
     collected_urls := collected_urls st;
     no_new_content_count := no_new_content_count st;
     old_content_found := old_content_found st |}.

(** Sample references and feeds. *)
Definition ref_a : string := "https://medium.com/@ana/models-for-interfaces-0123456789ab".
Definition ref_b : string := "https://medium.com/p/prompting-for-ux-abcdef012345".
Definition ref_c : string := "https://medium.com/@joe/ai-in-research-00ff00ff00".

Definition latest_url : string := "https://medium.com/tag/ux-design/latest".

(** A document that grows for three iterations and then shows nothing more. *)
Definition stalled_feed : Feed :=
  {| landing := Some "Ux Design - Medium";
     scrolled := fun i =>
       Some {| snap_hrefs :=
                 if (i <=? 1)%nat then [ref_a]
                 else if (i <=? 2)%nat then [ref_a; ref_b]
                 else [ref_a; ref_b; ref_c];
               snap_url := latest_url |} |}.

(** A document that shows one reference first and another one, alone, from
    the second iteration on. *)
Definition replacing_feed : Feed :=
  {| landing := Some "Ux Design - Medium";
     scrolled := fun i =>
       Some {| snap_hrefs := if (i <=? 1)%nat then [ref_a] else [ref_b];
               snap_url := latest_url |} |}.

(** Letter case ignored, hyphen and underscore read as a space. *)
Definition fold_char (c : ascii) : ascii :=
  if Ascii.eqb c "-" || Ascii.eqb c "_" then " "%char else Py.lower_char c.

Fixpoint normal_form (s : string) : string :=
  match s with
  | EmptyString => EmptyString
  | String c r => String (fold_char c) (normal_form r)
  end.

(** A required category matches an entry of a record when one is a substring
    of the other, both in normal form. *)
Definition category_matches (required actual : string) : Prop :=
  is_substring (normal_form required) (normal_form actual)
  \/ is_substring (normal_form actual) (normal_form required).

(** The year test: the date is not empty and starts with the year in
    decimal. *)
Definition published_in (year : Z) (a : Article) : Prop :=
  data_publicacao a <> "" /\ is_prefix (Py.str year) (data_publicacao a).

(** The keep condition of the Criteria Filter. *)
Definition meets_criteria (required_tags : list string) (year : Z)
    (a : Article) : Prop :=
  published_in year a
  /\ forall req, In req required_tags ->
       exists tag, In tag (tags a) /\ category_matches req tag.

(** The keep condition as the loop body tests it. *)
Definition keeps (required_tags : list string) (year : Z) (a : Article) : bool :=
  Py.truthy (data_publicacao a)
  && Py.startswith (data_publicacao a) (Py.str year)
  && all_tags_present (map normalize_tag required_tags)
                      (map normalize_tag (tags a)).

(** A record with nothing but a date and categories. *)
Definition record_of (published : string) (categories : list string) : Article :=
  {| titulo := "t"; autor := ""; data_publicacao := published;
     tags := categories; tempo_leitura := ""; resumo := "";
     fonte := "medium"; url := "" |}.

(** The input as the normalizer holds it once the time of day and the
    offset are cut off. *)
Definition without_time (date_str : string) : string :=
  Py.split_head "+"
    (if Py.contains "T" date_str then Py.split_head "T" date_str else date_str).

(** The structured-data tier gave no record, or a record without title. *)
Definition nothing_or_untitled (metadata : option Article) : Prop :=
  metadata = None \/ exists m, metadata = Some m /\ titulo m = "".

(** [sep] between every two consecutive elements, none after the last. *)
Fixpoint intersperse {A} (sep : A) (l : list A) : list A :=
  match l with
  | [] => []
  | x :: r =>
      match r with
      | [] => [x]
      | _ :: _ => x :: sep :: intersperse sep r
      end
  end.

(** The extraction results that succeeded with a title, in order. *)
Fixpoint usable_records (outcomes : list (option Article)) : list Article :=
  match outcomes with
  | [] => []
  | Some m :: r =>
      if Py.truthy (titulo m) then m :: usable_records r else usable_records r
  | None :: r => usable_records r
  end.

Definition outcome_of (e : BatchEvent) : list (option Article) :=
  match e with
  | EvExtract _ _ result => [result]
  | EvSleep _ => []
  end.


Section Sequential.
Context {World Page : Type}.
Variable goto : string -> World -> option Page * World.
Variable _extract_from_jsonld : Page -> World -> option Article * World.
Variable _extract_from_html : Page -> World -> option Article * World.

(** The Extractor run once on each reference, in order, every run in the
    world the run before it left: the events and the final world. *)
Fixpoint one_by_one (urls : list string) (w : World)
    : list BatchEvent * World :=
  match urls with
  | [] => ([], w)
  | target :: rest =>
      let '(result, inner, w1) :=
        extract_article_metadata goto _extract_from_jsonld
                                 _extract_from_html target w in
      let '(events, w2) := one_by_one rest w1 in
      (EvExtract target inner result :: events, w2)
  end.

End Sequential.

(** A small world for the end-to-end scenario: reference A carries
    structured data, B gives a record without title from both tiers, C has no
    structured data and is read from its markup, and D does not load.  The
    world counts the navigations. *)
Definition ref_A : string := "https://medium.com/@ana/a-0123456789ab".
Definition ref_B : string := "https://medium.com/@ana/b-0123456789ab".
Definition ref_C : string := "https://medium.com/@ana/c-0123456789ab".
Definition ref_D : string := "https://medium.com/@ana/d-0123456789ab".

Definition record_A : Article :=
  {| titulo := "Models in the design studio"; autor := "Ana";
     data_publicacao := "2025-02-10";
     tags := ["UX Design"; "Artificial Intelligence"];
     tempo_leitura := ""; resumo := ""; fonte := "medium"; url := "" |}.

Definition record_C : Article :=
  {| titulo := "Research notes"; autor := "Joe";
     data_publicacao := "2024-11-01";
     tags := ["ux design"; "artificial intelligence"];
     tempo_leitura := "4 min read"; resumo := ""; fonte := "medium";
     url := "" |}.

Definition toy_goto (target : string) (w : nat) : option string * nat :=
  (if String.eqb target ref_D then None else Some target, S w).

Definition toy_jsonld (page : string) (w : nat) : option Article * nat :=
  (if String.eqb page ref_A then Some record_A
   else if String.eqb page ref_B then Some ARTICLE_TEMPLATE
   else None, w).

Definition toy_html (page : string) (w : nat) : option Article * nat :=
  (if String.eqb page ref_C then Some record_C else Some ARTICLE_TEMPLATE, w).

Definition toy_batch (urls : list string) (delay_between : N)
    : Eff nat BatchEvent (list Article) :=
  process_articles_batch toy_goto toy_jsonld toy_html urls delay_between.

(** A feed that fails at its third iteration. *)
Definition failing_feed : Feed :=
  {| landing := Some "Ux Design - Medium";
     scrolled := fun i =>
       if (i =? 3)%nat then None
       else Some {| snap_hrefs := if (i <=? 1)%nat then [ref_a]
                                  else [ref_a; ref_b];
                    snap_url := latest_url |} |}.

(** A document only grows when a later snapshot holds every reference of an
    earlier one. *)
Definition only_grows (feed : Feed) : Prop :=
  forall i j snap_i snap_j,
    i <= j -> scrolled feed i = Some snap_i -> scrolled feed j = Some snap_j ->
    harvested snap_i ⊆ harvested snap_j.

(** The number of iterations a run made. *)
Definition iterations (feed : Feed) : nat :=
  match collect_links_from_tag feed with
  | Some (st, _) => scroll_count st
  | None => 0
  end.

(** The characters of a canonical date. *)
Definition date_char (c : ascii) : bool :=
  RefDatetime.is_digit c || Ascii.eqb c "-".

(** A date the [datetime] constructor accepts. *)
Definition valid_date (dt : date) : Prop :=
  RefDatetime.make_date (year dt) (month dt) (day dt) = Some dt.

(** * The two tiers of the Extractor ([parser.py])

    A value read by [json.loads].  Of a number the code can only see whether
    it is zero (its truth value) and its [str]; it is kept as these two.  An
    object is the list of its members, looked up from the left. *)

#[warnings="-register-all"]
Inductive JSON :=
| JNull
| JBool (b : bool)
| JNum (is_zero : bool) (shown : string)
| JStr (s : string)
| JList (items : list JSON)
| JObj (members : list (string * JSON)).

Module Json.

(** [d.get(key)] on a [dict]: [None] when the key is absent. *)
Fixpoint get (d : list (string * JSON)) (key : string) : option JSON :=
  match d with
  | [] => None
  | (k, v) :: rest => if String.eqb k key then Some v else get rest key
  end.

(** [d.get(key, default)] *)
Definition get_default (d : list (string * JSON)) (key : string)
    (default : JSON) : JSON :=
  match get d key with
  | Some v => v
  | None => default
  end.

(** The truth value of a Python value. *)
Definition truthy (v : JSON) : bool :=
  match v with
  | JNull => false
  | JBool b => b
  | JNum is_zero _ => negb is_zero
  | JStr s => Py.truthy s
  | JList items => match items with [] => false | _ :: _ => true end
  | JObj members => match members with [] => false | _ :: _ => true end
  end.

End Json.

(** [s.split(sep)] for a one-character [sep]. *)
Fixpoint py_split (sep : ascii) (s : string) : list string :=
  match s with
  | EmptyString => [EmptyString]
  | String c r =>
      if Ascii.eqb c sep then EmptyString :: py_split sep r
      else match py_split sep r with
           | h :: t => String c h :: t
           | [] => [String c EmptyString]
           end
  end.

(** The dictionary a tier fills: a copy of [ARTICLE_TEMPLATE] whose entries
    the JSON-LD tier overwrites with values of the structured data, of
    whatever type these are. *)
Record Metadata := {
  md_titulo : JSON;
  md_autor : JSON;
  md_data_publicacao : string;
  md_tags : list JSON;
  md_tempo_leitura : JSON;
  md_resumo : JSON;
  md_fonte : string;
  md_url : string
}.

Definition article_types : list string :=
  ["Article"; "NewsArticle"; "BlogPosting"].

(** [item.get("@type") in ["Article", "NewsArticle", "BlogPosting"]] *)
Definition is_article_type (type : option JSON) : bool :=
  match type with
  | Some (JStr s) => existsb (String.eqb s) article_types
  | _ => false
  end.

Section JsonLdTier.

(** The parsers of [datetime], [json.loads] ([None] for [JSONDecodeError])
    and [str] on a list or a dictionary. *)
Variable fromisoformat : string -> option date.
Variable strptime : string -> string -> option date.
Variable json_loads : string -> option JSON.
Variable repr : JSON -> string.

(** [str(v)] *)
Definition py_str (v : JSON) : string :=
  match v with
  | JStr s => s
  | JNum _ shown => shown
  | JBool true => "True"
  | JBool false => "False"
  | JNull => "None"
  | _ => repr v
  end.

(** The author entry, by the shape of [data.get("author")]. *)
Definition author_of (author : option JSON) : JSON :=
  match author with
  | Some (JObj a) => Json.get_default a "name" (JStr "")
  | Some (JList (JObj a :: _)) => Json.get_default a "name" (JStr "")
  | Some (JList (first :: _)) => JStr (py_str first)
  | Some (JStr s) => JStr s
  | _ => JStr ""
  end.

(** The date entry: [Some] of the entry, or [None] when [_normalize_date]
    raises, which it does on a true value that is no string. *)
Definition date_of (date_published : JSON) : option string :=
  if Json.truthy date_published then
    match date_published with
    | JStr s => Some (_normalize_date fromisoformat strptime s)
    | _ => None
    end
  else Some "".

(** The tags entry, by the shape of [data.get("keywords")]. *)
Definition tags_of (keywords : option JSON) : list JSON :=
  match keywords with
  | Some (JList items) => items
  | Some (JStr s) => map (fun k => JStr (Py.strip k)) (py_split "," s)
  | _ => []
  end.

(** [None] when the function raises. *)
Definition _parse_jsonld_article (data : list (string * JSON))
    : option Metadata :=
  let titulo :=
    Json.get_default data "headline" (Json.get_default data "name" (JStr "")) in
  let autor := author_of (Json.get data "author") in
  match date_of (Json.get_default data "datePublished" (JStr "")) with
  | None => None
  | Some data_publicacao =>
      Some {| md_titulo := titulo;
              md_autor := autor;
              md_data_publicacao := data_publicacao;
              md_tags := tags_of (Json.get data "keywords");
              md_tempo_leitura := Json.get_default data "timeRequired" (JStr "");
              md_resumo := Json.get_default data "description" (JStr "");
              md_fonte := "medium";
              md_url := "" |}
  end.

(** What looking through one block gives. *)
Inductive Scan :=
| Raised                 (* an exception other than [JSONDecodeError] *)
| Missing                (* no article in this block *)
| Found (m : Metadata).

Definition parse_item (d : list (string * JSON)) : Scan :=
  match _parse_jsonld_article d with
  | Some m => Found m
  | None => Raised
  end.

(** [for item in items: if item.get("@type") in [...]: return ...]; an item
    that is no dictionary has no [get]. *)
Fixpoint scan_items (items : list JSON) : Scan :=
  match items with
  | [] => Missing
  | JObj d :: rest =>
      if is_article_type (Json.get d "@type") then parse_item d
      else scan_items rest
  | _ :: _ => Raised
  end.

(** The [for item in data["@graph"]] loop: a string yields its characters and
    a dictionary its keys, none of which has a [get]; the other values cannot
    be iterated. *)
Definition scan_graph (graph : JSON) : Scan :=
  match graph with
  | JList items => scan_items items
  | JStr s => if Py.truthy s then Raised else Missing
  | JObj members => match members with [] => Missing | _ :: _ => Raised end
  | _ => Raised
  end.

Definition scan_block (data : JSON) : Scan :=
  match data with
  | JList items => scan_items items
  | JObj d =>
      if is_article_type (Json.get d "@type") then parse_item d
      else match Json.get d "@graph" with
           | Some graph => scan_graph graph
           | None => Missing
           end
  | _ => Raised
  end.

(** The tier on the contents of the [application/ld+json] scripts of the
    page, in document order. *)
Fixpoint _extract_from_jsonld (scripts : list string) : option Metadata :=
  match scripts with
  | [] => None
  | content :: rest =>
      match json_loads content with
      | None => _extract_from_jsonld rest            (* [continue] *)
      | Some data =>
          match scan_block data with
          | Found m => Some m
          | Raised => None                           (* [except Exception] *)
          | Missing => _extract_from_jsonld rest
          end
      end
  end.

End JsonLdTier.

(** ** The markup tier

    A rendered page as the tier reads it: what [query_selector] and
    [query_selector_all] give for a selector, and for an element its
    [inner_text] and its attributes. *)

Record Element := {
  inner_text : string;
  attributes : list (string * string)
}.

(** [element.get_attribute(name)] *)
Fixpoint get_attribute_in (attrs : list (string * string)) (name : string)
    : option string :=
  match attrs with
  | [] => None
  | (k, v) :: rest => if String.eqb k name then Some v else get_attribute_in rest name
  end.

Definition get_attribute (element : Element) (name : string) : option string :=
  get_attribute_in (attributes element) name.

Record Dom := {
  query_selector : string -> option Element;
  query_selector_all : string -> list Element
}.

(** The double quote. *)
Definition dq : string := String "034"%char EmptyString.

Definition title_selectors : list string :=
  ["h1";
   "meta[property=" ++ dq ++ "og:title" ++ dq ++ "]";
   "meta[name=" ++ dq ++ "twitter:title" ++ dq ++ "]";
   "title"].

Definition author_selectors : list string :=
  ["a[data-testid=" ++ dq ++ "authorName" ++ dq ++ "]";
   "a[rel=" ++ dq ++ "author" ++ dq ++ "]";
   "meta[name=" ++ dq ++ "author" ++ dq ++ "]";
   "meta[property=" ++ dq ++ "article:author" ++ dq ++ "]"].

Definition date_selectors : list string :=
  ["meta[property=" ++ dq ++ "article:published_time" ++ dq ++ "]";
   "time[datetime]";
   "meta[name=" ++ dq ++ "date" ++ dq ++ "]"].

Definition description_selector : string :=
  "meta[property=" ++ dq ++ "og:description" ++ dq ++ "]".

Definition tag_selector : string := "a[href*=" ++ dq ++ "/tag/" ++ dq ++ "]".

Definition reading_time_selector : string :=
  "span:has-text(" ++ dq ++ " min read" ++ dq ++ ")".

(** [x or ""] for an attribute. *)
Definition or_empty (x : option string) : string :=
  match x with
  | Some v => v
  | None => ""
  end.

(** What the title and author loops assign for an element found. *)
Definition text_value (selector : string) (element : Element) : string :=
  if Py.contains "meta" selector
  then or_empty (get_attribute element "content")
  else inner_text element.

(** The loops over [title_selectors] and [author_selectors]; [current] is
    the entry of the dictionary so far. *)
Fixpoint first_text (page : Dom) (selectors : list string) (current : string)
    : string :=
  match selectors with
  | [] => current
  | selector :: rest =>
      match query_selector page selector with
      | Some element =>
          let value := text_value selector element in
          if Py.truthy value then value          (* [break] *)
          else first_text page rest value
      | None => first_text page rest current
      end
  end.

(** The attribute the date loop reads. *)
Definition date_value (selector : string) (element : Element) : option string :=
  if String.eqb selector "time[datetime]"
  then get_attribute element "datetime"
  else get_attribute element "content".

(** The body of the [for tag_el in tag_elements] loop. *)
Definition add_tag (tags : gset string) (tag_el : Element) : gset string :=
  let tag_text := inner_text tag_el in
  if Py.truthy tag_text then tags ∪ {[ Py.lower (Py.strip tag_text) ]}
  else tags.

Section HtmlTier.

Variable fromisoformat : string -> option date.
Variable strptime : string -> string -> option date.

(** The loop over [date_selectors]. *)
Fixpoint first_date (page : Dom) (selectors : list string) (current : string)
    : string :=
  match selectors with
  | [] => current
  | selector :: rest =>
      match query_selector page selector with
      | Some element =>
          match date_value selector element with
          | Some date_str =>
              if Py.truthy date_str
              then _normalize_date fromisoformat strptime date_str   (* [break] *)
              else first_date page rest current
          | None => first_date page rest current
          end
      | None => first_date page rest current
      end
  end.

(** The tier on a page that raises nothing.  [list(tags)] is the members of
    the set in an order of its own; [elements] stands for it. *)
Definition _extract_from_html (page : Dom) : Article :=
  {| titulo := first_text page title_selectors "";
     autor := first_text page author_selectors "";
     data_publicacao := first_date page date_selectors "";
     tags := elements (fold_left add_tag (query_selector_all page tag_selector) ∅);
     tempo_leitura :=
       match query_selector page reading_time_selector with
       | Some time_element => inner_text time_element
       | None => ""
       end;
     resumo :=
       match query_selector page description_selector with
       | Some desc_element => or_empty (get_attribute desc_element "content")
       | None => ""
       end;
     fonte := "medium";
     url := "" |}.

End HtmlTier.

(** ** Vocabulary for the two tiers *)


(** An object that is no article. *)
Definition other_object (v : JSON) : Prop :=
  exists d, v = JObj d /\ is_article_type (Json.get d "@type") = false.

Definition is_object (v : JSON) : bool :=
  match v with
  | JObj _ => true
  | _ => false
  end.

Definition is_container (v : JSON) : bool :=
  match v with
  | JObj _ | JList _ => true
  | _ => false
  end.

Definition is_string (v : JSON) : bool :=
  match v with
  | JStr _ => true
  | _ => false
  end.

(** [sep.join(pieces)] for a one-character [sep]. *)
Fixpoint py_join (sep : ascii) (pieces : list string) : string :=
  match pieces with
  | [] => ""
  | p :: rest =>
      match rest with
      | [] => p
      | _ :: _ => p ++ String sep (py_join sep rest)
      end
  end.

Fixpoint count_char (c : ascii) (s : string) : nat :=
  match s with
  | EmptyString => 0
  | String d r => (if Ascii.eqb d c then 1 else 0) + count_char c r
  end.

(** A [json.loads] for three sample blocks. *)
Definition sample_loads (block : string) : option JSON :=
  if String.eqb block "article" then
    Some (JObj [("@type", JStr "Article"); ("headline", JStr "Models")])
  else if String.eqb block "crumbs" then
    Some (JObj [("@type", JStr "BreadcrumbList")])
  else if String.eqb block "five" then Some (JNum false "5")
  else None.

Definition sample_repr (v : JSON) : string := "".

(** What the title and author loops read at a selector: the empty string
    when the page has no such element. *)
Definition content_at (page : Dom) (selector : string) : string :=
  match query_selector page selector with
  | Some element => text_value selector element
  | None => ""
  end.

(** What the date loop reads at a selector. *)
Definition date_at (page : Dom) (selector : string) : string :=
  match query_selector page selector with
  | Some element => or_empty (date_value selector element)
  | None => ""
  end.

(** The first selector of a list at which something is read. *)
Definition first_filled (read : string -> string) (selectors : list string)
    : option string :=
  List.find (fun selector => Py.truthy (read selector)) selectors.

(** A page with one tag link whose text is blank, and a date. *)
Definition blank_tag_page : Dom :=
  {| query_selector := fun selector =>
       if String.eqb selector "h1"
       then Some {| inner_text := "Notes"; attributes := [] |}
       else if String.eqb selector "time[datetime]"
       then Some {| inner_text := "";
                    attributes := [("datetime", "2025-05-02T08:00:00")] |}
       else None;
     query_selector_all := fun selector =>
       if String.eqb selector tag_selector
       then [{| inner_text := "  "; attributes := [] |}]
       else [] |}.

(** * Properties *)

(** ** Strings *)

#[local] Arguments String.append !_ _ / : simpl nomatch.

Lemma app_empty_r (s : string) : s ++ "" = s.
Proof. induction s as [|c r IH]; simpl; [reflexivity | now rewrite IH]. Qed.


Lemma length_app_s (a b : string) :
  String.length (a ++ b) = String.length a + String.length b.
Proof. induction a as [|x a IH]; simpl; [reflexivity | now rewrite IH]. Qed.

Lemma startswith_spec (s p : string) :
  Py.startswith s p = true <-> is_prefix p s.
Proof.
  revert s. induction p as [|c p IH]; intros s; simpl.
  - split; [intros _; now exists s | reflexivity].
  - destruct s as [|d s].
    + split; [discriminate | intros [post H]; discriminate].
    + rewrite andb_true_iff, IH. split.
      * intros [Hc [post H]]. apply Ascii.eqb_eq in Hc. subst.
        now exists post.
      * intros [post H]. simpl in H. inversion H. split.
        -- apply Ascii.eqb_refl.
        -- now exists post.
Qed.

Lemma contains_spec (needle hay : string) :
  Py.contains needle hay = true <-> is_substring needle hay.
Proof.
  induction hay as [|c hay IH]; simpl.
  - rewrite orb_false_r, startswith_spec. split.
    + intros [post H]. exists "", post. exact H.
    + intros [pre [post H]]. destruct pre as [|x pre]; [| discriminate].
      exists post. exact H.
  - rewrite orb_true_iff, IH, startswith_spec. split.
    + intros [[post H] | [pre [post H]]].
      * exists "", post. exact H.
      * exists (String c pre), post. simpl. now rewrite H.
    + intros [pre [post H]]. destruct pre as [|x pre].
      * left. exists post. exact H.
      * right. simpl in H. inversion H. now exists pre, post.
Qed.

Lemma contains_false (needle hay : string) :
  Py.contains needle hay = false <-> ~ is_substring needle hay.
Proof.
  rewrite <- contains_spec. destruct (Py.contains needle hay).
  - split; [discriminate | intros H; now contradict H].
  - split; [intros _ H; discriminate | reflexivity].
Qed.

Lemma truthy_spec (s : string) : Py.truthy s = true <-> s <> "".
Proof.
  unfold Py.truthy. destruct (String.eqb_spec s "") as [E|E]; simpl.
  - split; [discriminate | intros H; now contradict H].
  - split; [intros _; exact E | reflexivity].
Qed.


Lemma lower_length (s : string) : String.length (Py.lower s) = String.length s.
Proof. induction s as [|c r IH]; simpl; [reflexivity | now rewrite IH]. Qed.

Lemma replace_app (old new : ascii) (a b : string) :
  Py.replace old new (a ++ b) = Py.replace old new a ++ Py.replace old new b.
Proof. induction a as [|c a IH]; simpl; [reflexivity | now rewrite IH]. Qed.


(** ** URL Classifier *)

Lemma all_chars_app (P : ascii -> bool) (a b : string) :
  all_chars P (a ++ b) = all_chars P a && all_chars P b.
Proof.
  induction a as [|c a IH]; simpl; [reflexivity |].
  now rewrite IH, andb_assoc.
Qed.

Lemma last_char_snoc (pre : string) (c : ascii) :
  last_char (pre ++ String c "") = Some c.
Proof.
  induction pre as [|d pre IH]; simpl; [reflexivity |].
  rewrite IH. destruct (pre ++ String c "") eqn:E; [| reflexivity].
  destruct pre; discriminate.
Qed.














(** ** Canonicalization *)

Lemma split_head_fixed (sep : ascii) (s : string) :
  all_chars (fun c => negb (Ascii.eqb c sep)) s = true ->
  Py.split_head sep s = s.
Proof.
  induction s as [|c s IH]; simpl; [reflexivity |].
  intros H. apply andb_true_iff in H as [Hc Hs].
  apply negb_true_iff in Hc. rewrite Hc. now rewrite IH.
Qed.

Lemma split_head_free (sep : ascii) (s : string) :
  all_chars (fun c => negb (Ascii.eqb c sep)) (Py.split_head sep s) = true.
Proof.
  induction s as [|c s IH]; simpl; [reflexivity |].
  destruct (Ascii.eqb c sep) eqn:E; simpl; [reflexivity |].
  now rewrite E, IH.
Qed.

Lemma split_head_keeps (P : ascii -> bool) (sep : ascii) (s : string) :
  all_chars P s = true -> all_chars P (Py.split_head sep s) = true.
Proof.
  induction s as [|c s IH]; simpl; [reflexivity |].
  intros H. apply andb_true_iff in H as [Hc Hs].
  destruct (Ascii.eqb c sep); simpl; [reflexivity |].
  now rewrite Hc, IH.
Qed.

Lemma normalize_url_words (x : string) :
  _normalize_url x = before_query_or_fragment x.
Proof.
  unfold _normalize_url. induction x as [|c x IH]; simpl; [reflexivity |].
  destruct (Ascii.eqb c "?") eqn:Eq; simpl; [reflexivity |].
  destruct (Ascii.eqb c "#") eqn:Eh; simpl; [reflexivity |].
  now rewrite IH.
Qed.

(** C9: canonicalizing twice is canonicalizing once, and canonicalizing drops
    everything from the first [?] or [#] onward. *)
Theorem normalize_url_idempotent (x : string) :
  _normalize_url (_normalize_url x) = _normalize_url x
  /\ _normalize_url x = before_query_or_fragment x.
Proof.
  split; [| apply normalize_url_words].
  unfold _normalize_url.
  rewrite (split_head_fixed "?" (Py.split_head "#" (Py.split_head "?" x))).
  - apply split_head_fixed, split_head_free.
  - apply split_head_keeps, split_head_free.
Qed.

(** ** Incremental Collector *)

Lemma add_href_elem (valid : gset string) (href x : string) :
  x ∈ add_href valid href <->
  x ∈ valid
  \/ (href <> "" /\ _is_article_url href = true /\ x = _normalize_url href).
Proof.
  unfold add_href. destruct (Py.truthy href) eqn:Ht; simpl.
  - apply truthy_spec in Ht. destruct (_is_article_url href) eqn:Ha.
    + rewrite elem_of_union, elem_of_singleton. tauto.
    + split; [tauto | intros [H | (_ & H & _)]; [exact H | discriminate]].
  - split; [tauto |]. intros [H | (Hne & _)]; [exact H |].
    apply truthy_spec in Hne. congruence.
Qed.

Lemma fold_add_href_elem (hrefs : list string) (valid : gset string) (x : string) :
  x ∈ fold_left add_href hrefs valid <->
  x ∈ valid
  \/ exists href, In href hrefs /\ href <> "" /\ _is_article_url href = true
                  /\ x = _normalize_url href.
Proof.
  revert valid. induction hrefs as [|h hrefs IH]; intros valid; simpl.
  - split; [tauto | intros [H | (href & [] & _)]; exact H].
  - rewrite IH, add_href_elem. split.
    + intros [[H | H] | (href & Hin & H)].
      * now left.
      * right. exists h. tauto.
      * right. exists href. tauto.
    + intros [H | (href & [<- | Hin] & H)].
      * left. now left.
      * left. now right.
      * right. now exists href.
Qed.

(** The harvest holds exactly the canonical forms of the accepted hrefs. *)
Lemma harvested_elem (snap : Snapshot) (x : string) :
  x ∈ harvested snap <->
  exists href, In href (snap_hrefs snap) /\ _is_article_url href = true
               /\ x = _normalize_url href.
Proof.
  unfold harvested, _extract_article_links. cbn [fst].
  rewrite fold_add_href_elem. split.
  - intros [H | (href & Hin & _ & Ha & Hx)]; [set_solver |]. now exists href.
  - intros (href & Hin & Ha & Hx). right. exists href. repeat split; auto.
    intros ->. discriminate.
Qed.

(** The harvest never reports old content. *)
Lemma extract_article_links_found_old (hrefs : list string) :
  snd (_extract_article_links hrefs) = false.
Proof. reflexivity. Qed.

Lemma merge_links_grows (st : LoopState) (new_urls : gset string) :
  collected_urls st ⊆ collected_urls (merge_links st new_urls).
Proof.
  unfold merge_links.
  destruct (size (collected_urls st) <? size new_urls)%nat; simpl; set_solver.
Qed.


(** The counter is reset exactly when the accumulator gains a reference. *)
Lemma merge_links_counter (st : LoopState) (new_urls : gset string) :
  (collected_urls (merge_links st new_urls) = collected_urls st
   /\ no_new_content_count (merge_links st new_urls)
      = S (no_new_content_count st))
  \/ (size (collected_urls st) < size (collected_urls (merge_links st new_urls))
      /\ no_new_content_count (merge_links st new_urls) = 0).
Proof.
  unfold merge_links.
  destruct (Nat.ltb_spec (size (collected_urls st)) (size new_urls)) as [H|H];
    simpl.
  - right. split; [| reflexivity].
    eapply Nat.lt_le_trans; [exact H |].
    apply subseteq_size. set_solver.
  - left. split; reflexivity.
Qed.

(** With a harvest that holds all that was collected (a document that only
    grows), the accumulator after the merge is the union. *)
Lemma merge_links_cumulative (st : LoopState) (new_urls : gset string) :
  collected_urls st ⊆ new_urls ->
  collected_urls (merge_links st new_urls) = collected_urls st ∪ new_urls.
Proof.
  intros Hsub. unfold merge_links.
  destruct (Nat.ltb_spec (size (collected_urls st)) (size new_urls)) as [H|H];
    simpl; [reflexivity |].
  assert (E : collected_urls st = new_urls).
  { apply set_eq. intros x. split; [set_solver |].
    intros Hx. destruct (decide (x ∈ collected_urls st)) as [|Hn]; [assumption |].
    assert (Hlt : size (collected_urls st) < size new_urls); [| lia].
    apply subset_size. set_solver. }
  now rewrite E, union_idemp_L.
Qed.

Lemma loop_body_as_written (st : LoopState) (hrefs : list string) (url : string) :
  loop_body st (_extract_article_links hrefs) url =
  let st' := merge_links st (fst (_extract_article_links hrefs)) in
  (st', if (6 <=? no_new_content_count st')%nat then Some StopStale else None).
Proof.
  unfold loop_body, _extract_article_links. cbn [fst andb]. cbv zeta.
  now destruct (6 <=? _)%nat.
Qed.

Lemma loop_body_grows (st : LoopState) (harvest : gset string * bool)
    (url : string) :
  collected_urls st ⊆ collected_urls (fst (loop_body st harvest url)).
Proof.
  destruct harvest as [new_urls found_old]. unfold loop_body.
  pose proof (merge_links_grows st new_urls) as Hg.
  destruct (found_old && is_chronological url); [exact Hg |].
  destruct (6 <=? no_new_content_count (merge_links st new_urls))%nat;
    exact Hg.
Qed.

Lemma merge_links_scroll_count (st : LoopState) (new_urls : gset string) :
  scroll_count (merge_links st new_urls) = scroll_count st.
Proof. unfold merge_links. now destruct (_ <? _)%nat. Qed.

Lemma merge_links_old_content (st : LoopState) (new_urls : gset string) :
  old_content_found (merge_links st new_urls) = old_content_found st.
Proof. unfold merge_links. now destruct (_ <? _)%nat. Qed.

(** One unfolding of the loop with the harvest as written. *)
Lemma scroll_loop_step (max_scrolls : nat) (feed : Feed) (fuel : nat)
    (st : LoopState) :
  scroll_loop max_scrolls feed (S fuel) st =
  if (scroll_count st <? max_scrolls)%nat && negb (old_content_found st) then
    match scrolled feed (S (scroll_count st)) with
    | None => Some (bump st, StopFault)
    | Some snap =>
        let st' := merge_links (bump st) (harvested snap) in
        if (6 <=? no_new_content_count st')%nat then Some (st', StopStale)
        else scroll_loop max_scrolls feed fuel st'
    end
  else Some (st, if old_content_found st then StopOld else StopBudget).
Proof.
  cbn [scroll_loop]. fold (bump st).
  destruct ((scroll_count st <? max_scrolls)%nat && negb (old_content_found st));
    [| reflexivity].
  cbn [scroll_count bump].
  destruct (scrolled feed (S (scroll_count st))) as [snap|]; [| reflexivity].
  rewrite loop_body_as_written. cbv zeta. fold (harvested snap).
  now destruct (6 <=? _)%nat.
Qed.

#[local] Opaque scroll_loop.

(** The loop ends: fuel beyond the remaining budget is never used up. *)
Lemma scroll_loop_total (max_scrolls : nat) (feed : Feed) :
  forall fuel st,
    max_scrolls - scroll_count st < fuel ->
    exists result, scroll_loop max_scrolls feed fuel st = Some result.
Proof.
  induction fuel as [|fuel IH]; intros st Hfuel; [lia |].
  rewrite scroll_loop_step.
  destruct (Nat.ltb_spec (scroll_count st) max_scrolls) as [Hlt|Hge];
    cbn [andb]; [| eauto].
  destruct (negb (old_content_found st)); [| eauto].
  destruct (scrolled feed (S (scroll_count st))) as [snap|]; [| eauto].
  cbv zeta. destruct (6 <=? _)%nat; [eauto |].
  apply IH. rewrite merge_links_scroll_count. cbn [scroll_count bump]. lia.
Qed.

Lemma scroll_loop_fuel (max_scrolls : nat) (feed : Feed) :
  forall fuel st result,
    scroll_loop max_scrolls feed fuel st = Some result ->
    forall fuel', fuel <= fuel' ->
    scroll_loop max_scrolls feed fuel' st = Some result.
Proof.
  induction fuel as [|fuel IH]; intros st result Hrun fuel' Hle.
  - discriminate Hrun.
  - destruct fuel' as [|fuel']; [lia |].
    rewrite scroll_loop_step in *.
    destruct ((scroll_count st <? max_scrolls)%nat
              && negb (old_content_found st)); [| exact Hrun].
    destruct (scrolled feed (S (scroll_count st))) as [snap|]; [| exact Hrun].
    cbv zeta in *. destruct (6 <=? _)%nat; [exact Hrun |].
    apply (IH _ _ Hrun). lia.
Qed.

(** The iteration counter only goes up, and not beyond the cap. *)
Lemma scroll_loop_count (max_scrolls : nat) (feed : Feed) :
  forall fuel st st' r,
    scroll_loop max_scrolls feed fuel st = Some (st', r) ->
    scroll_count st <= scroll_count st'
    /\ (scroll_count st <= max_scrolls -> scroll_count st' <= max_scrolls).
Proof.
  induction fuel as [|fuel IH]; intros st st' r Hrun; [discriminate Hrun |].
  rewrite scroll_loop_step in Hrun.
  destruct (Nat.ltb_spec (scroll_count st) max_scrolls) as [Hlt|Hge];
    cbn [andb] in Hrun.
  2: { injection Hrun as <- _. lia. }
  destruct (negb (old_content_found st)).
  2: { injection Hrun as <- _. lia. }
  destruct (scrolled feed (S (scroll_count st))) as [snap|].
  2: { injection Hrun as <- _. cbn [scroll_count bump]. lia. }
  cbv zeta in Hrun.
  pose proof (merge_links_scroll_count (bump st) (harvested snap)) as Hc.
  cbn [scroll_count bump] in Hc.
  destruct (6 <=? _)%nat.
  - injection Hrun as <- _. lia.
  - apply IH in Hrun. lia.
Qed.

(** A run under the cap [k] is the start of a run under a larger cap [m]: a
    run that ends for another reason than its budget ends the same way, and a
    run that ends on its budget is carried on from its final state. *)
Lemma scroll_loop_cap (k m : nat) (feed : Feed) :
  k <= m ->
  forall fuel st st' r,
    scroll_loop k feed fuel st = Some (st', r) ->
    old_content_found st = false ->
    scroll_count st <= k ->
    (r <> StopBudget /\ scroll_loop m feed fuel st = Some (st', r))
    \/ (r = StopBudget /\ scroll_count st' = k
        /\ old_content_found st' = false
        /\ forall more,
             scroll_loop m feed (scroll_count st' - scroll_count st + more) st
             = scroll_loop m feed more st').
Proof.
  intros Hkm. induction fuel as [|fuel IH]; intros st st' r Hrun Hold Hle;
    [discriminate Hrun |].
  rewrite scroll_loop_step in Hrun. rewrite Hold in Hrun.
  destruct (Nat.ltb_spec (scroll_count st) k) as [Hlt|Hge]; cbn [andb negb] in Hrun.
  2: { injection Hrun as <- <-. right. repeat split; auto; try lia.
       intros more. now rewrite Nat.sub_diag. }
  assert (Hm : (scroll_count st <? m)%nat = true) by (apply Nat.ltb_lt; lia).
  destruct (scrolled feed (S (scroll_count st))) as [snap|] eqn:Hsnap.
  2: { injection Hrun as <- <-. left. split; [discriminate |].
       rewrite scroll_loop_step, Hm, Hold, Hsnap. reflexivity. }
  cbv zeta in Hrun.
  set (st1 := merge_links (bump st) (harvested snap)) in *.
  assert (Hc1 : scroll_count st1 = S (scroll_count st))
    by (unfold st1; now rewrite merge_links_scroll_count).
  assert (Ho1 : old_content_found st1 = false)
    by (unfold st1; now rewrite merge_links_old_content).
  destruct (6 <=? no_new_content_count st1)%nat eqn:Hstale.
  - injection Hrun as <- <-. left. split; [discriminate |].
    rewrite scroll_loop_step, Hm, Hold, Hsnap. cbn [andb negb]. cbv zeta.
    fold st1. now rewrite Hstale.
  - pose proof (scroll_loop_count _ _ _ _ _ _ Hrun) as [Hmono _].
    destruct (IH _ _ _ Hrun Ho1) as [[Hr Hsame] | (Hr & Hk & Ho & Hmore)];
      [lia | |].
    + left. split; [exact Hr |].
      rewrite scroll_loop_step, Hm, Hold, Hsnap. cbn [andb negb]. cbv zeta.
      fold st1. now rewrite Hstale.
    + right. repeat split; auto. intros more.
      replace (scroll_count st' - scroll_count st + more)
        with (S (scroll_count st' - scroll_count st1 + more)) by lia.
      rewrite scroll_loop_step, Hm, Hold, Hsnap. cbn [andb negb]. cbv zeta.
      fold st1. rewrite Hstale. apply Hmore.
Qed.


(** Every run returns. *)
Lemma collect_links_from_tag_total (feed : Feed) :
  exists st r, collect_links_from_tag feed = Some (st, r).
Proof.
  unfold collect_links_from_tag, collect_with_cap.
  destruct (landing feed); [| eauto].
  destruct (scroll_loop_total MAX_SCROLLS feed (S MAX_SCROLLS) initial_state)
    as [[st r] H]; [cbn [scroll_count initial_state]; lia | eauto].
Qed.

(** The accumulator never loses a reference during a run. *)
Lemma scroll_loop_grows (max_scrolls : nat) (feed : Feed) :
  forall fuel st st' r,
    scroll_loop max_scrolls feed fuel st = Some (st', r) ->
    collected_urls st ⊆ collected_urls st'.
Proof.
  induction fuel as [|fuel IH]; intros st st' r Hrun; [discriminate Hrun |].
  rewrite scroll_loop_step in Hrun.
  destruct ((scroll_count st <? max_scrolls)%nat && negb (old_content_found st)).
  2: { now injection Hrun as <- _. }
  destruct (scrolled feed (S (scroll_count st))) as [snap|].
  2: { now injection Hrun as <- _. }
  cbv zeta in Hrun.
  pose proof (merge_links_grows (bump st) (harvested snap)) as Hg.
  cbn [collected_urls bump] in Hg.
  destruct (6 <=? _)%nat.
  - now injection Hrun as <- _.
  - apply IH in Hrun. set_solver.
Qed.

(** With the harvest as written, no run ends on the stale-content signal. *)
Lemma scroll_loop_never_old (max_scrolls : nat) (feed : Feed) :
  forall fuel st st' r,
    scroll_loop max_scrolls feed fuel st = Some (st', r) ->
    old_content_found st = false ->
    r <> StopOld.
Proof.
  induction fuel as [|fuel IH]; intros st st' r Hrun Hold; [discriminate Hrun |].
  rewrite scroll_loop_step, Hold in Hrun.
  destruct (scroll_count st <? max_scrolls)%nat; cbn [andb negb] in Hrun.
  2: { injection Hrun as _ <-. discriminate. }
  destruct (scrolled feed (S (scroll_count st))) as [snap|].
  2: { injection Hrun as _ <-. discriminate. }
  cbv zeta in Hrun. destruct (6 <=? _)%nat.
  - injection Hrun as _ <-. discriminate.
  - apply (IH _ _ _ Hrun). now rewrite merge_links_old_content.
Qed.





(** The sample feed stops at iteration 9 exactly, on the exhaustion signal,
    with the three references it showed. *)
Example stalled_feed_run :
  exists st,
    collect_links_from_tag stalled_feed = Some (st, StopStale)
    /\ scroll_count st = 9
    /\ collected_urls st = {[ ref_a; ref_b; ref_c ]}.
Proof.
  eexists. split; [vm_compute; reflexivity |].
  split; [reflexivity | vm_compute; reflexivity].
Qed.

(** C5: whatever the harvest reports, the loop body stops on the
    stale-content signal exactly when the page URL holds [/latest] and the
    harvest reported old content; on any other URL it does not stop on that
    signal, old content reported or not. *)
Theorem stale_content_signal (st : LoopState) (new_urls : gset string)
    (found_old : bool) (url : string) :
  (snd (loop_body st (new_urls, found_old) url) = Some StopOld
   <-> is_substring "/latest" url /\ found_old = true)
  /\ (~ is_substring "/latest" url ->
      snd (loop_body st (new_urls, true) url) <> Some StopOld).
Proof.
  assert (Hiff : forall reported,
             snd (loop_body st (new_urls, reported) url) = Some StopOld
             <-> is_substring "/latest" url /\ reported = true).
  { intros reported. unfold loop_body, is_chronological.
    rewrite <- contains_spec.
    destruct reported; cbn [andb].
    - destruct (Py.contains "/latest" url); cbn [snd].
      + tauto.
      + destruct (6 <=? _)%nat; cbn [snd];
          (split; [discriminate | intros [H _]; discriminate]).
    - destruct (6 <=? _)%nat; cbn [snd];
        (split; [discriminate | intros [_ H]; discriminate]). }
  split; [apply Hiff |].
  intros Hn H. apply Hiff in H. tauto.
Qed.

(** As the harvest is written it reports nothing, so no run of the collector
    ends on the stale-content signal. *)
Lemma collect_never_stops_on_old_content (feed : Feed) (st : LoopState)
    (r : Stop) :
  collect_links_from_tag feed = Some (st, r) -> r <> StopOld.
Proof.
  unfold collect_links_from_tag, collect_with_cap.
  destruct (landing feed).
  - intros H. now apply (scroll_loop_never_old _ _ _ _ _ _ H).
  - intros [= _ <-]. discriminate.
Qed.

(** C3 fails on the feed that replaces its only reference: the second
    iteration harvests [ref_b], the accumulator holds one reference already,
    the harvest is not larger, and the merge is skipped.  The run ends at
    iteration 7 without [ref_b], which every snapshot from the second on
    showed. *)
Theorem merge_skipped_on_replaced_reference :
  collected_after 1 replacing_feed = {[ ref_a ]}
  /\ (forall i, 2 <= i ->
        exists snap, scrolled replacing_feed i = Some snap
                     /\ harvested snap = {[ ref_b ]})
  /\ collected_after 2 replacing_feed = {[ ref_a ]}
  /\ exists st,
       collect_links_from_tag replacing_feed = Some (st, StopStale)
       /\ scroll_count st = 7
       /\ collected_urls st = {[ ref_a ]}
       /\ ref_b ∉ collected_urls st.
Proof.
  split; [vm_compute; reflexivity |].
  split.
  { intros i Hi. destruct i as [|[|i]]; try lia.
    eexists. split; [reflexivity |]. vm_compute. reflexivity. }
  split; [vm_compute; reflexivity |].
  eexists. split; [vm_compute; reflexivity |].
  split; [reflexivity |].
  split; [vm_compute; reflexivity |].
  intros H. vm_compute in H. discriminate.
Qed.

(** ** Criteria Filter *)

Lemma normalize_tag_char (c : ascii) :
  (let l := Py.lower_char c in
   let r := if Ascii.eqb l "-" then " "%char else l in
   if Ascii.eqb r "_" then " "%char else r) = fold_char c.
Proof. destruct c as [[] [] [] [] [] [] [] []]; reflexivity. Qed.

Lemma normalize_tag_normal_form (s : string) : normalize_tag s = normal_form s.
Proof.
  unfold normalize_tag. induction s as [|c s IH]; [reflexivity |].
  cbn [Py.lower Py.replace normal_form]. rewrite IH.
  f_equal. apply normalize_tag_char.
Qed.

Lemma tag_matches_spec (req tag : string) :
  tag_matches (normalize_tag req) (normalize_tag tag) = true
  <-> category_matches req tag.
Proof.
  unfold tag_matches, category_matches.
  now rewrite orb_true_iff, !contains_spec, !normalize_tag_normal_form.
Qed.

Lemma all_tags_present_spec (required_tags article_tags : list string) :
  all_tags_present (map normalize_tag required_tags)
                   (map normalize_tag article_tags) = true
  <-> forall req, In req required_tags ->
        exists tag, In tag article_tags /\ category_matches req tag.
Proof.
  unfold all_tags_present. rewrite forallb_forall. split.
  - intros H req Hreq.
    specialize (H (normalize_tag req) (in_map _ _ _ Hreq)).
    apply existsb_exists in H as (t & Ht & Hm).
    apply in_map_iff in Ht as (tag & <- & Htag).
    exists tag. split; [exact Htag | now apply tag_matches_spec].
  - intros H r Hr. apply in_map_iff in Hr as (req & <- & Hreq).
    destruct (H req Hreq) as (tag & Htag & Hm).
    apply existsb_exists. exists (normalize_tag tag).
    split; [now apply in_map | now apply tag_matches_spec].
Qed.

Lemma keeps_spec (required_tags : list string) (year : Z) (a : Article) :
  keeps required_tags year a = true <-> meets_criteria required_tags year a.
Proof.
  unfold keeps, meets_criteria, published_in.
  rewrite !andb_true_iff, truthy_spec, startswith_spec, all_tags_present_spec.
  tauto.
Qed.

(** The loop appends, in order, the records that pass the test. *)
Lemma filter_loop_filter (required_tags : list string) (year : Z) :
  forall articles filtered,
    filter_loop (map normalize_tag required_tags) year articles filtered
    = (filtered ++ List.filter (keeps required_tags year) articles)%list.
Proof.
  induction articles as [|a articles IH]; intros filtered;
    cbn [filter_loop List.filter].
  - now rewrite app_nil_r.
  - unfold keeps at 1.
    destruct (Py.truthy (data_publicacao a)); cbn [negb orb andb];
      [| apply IH].
    destruct (Py.startswith (data_publicacao a) (Py.str year));
      cbn [negb andb]; [| apply IH].
    destruct (all_tags_present _ _); [| apply IH].
    rewrite IH. now rewrite <- app_assoc.
Qed.

Lemma filter_articles_filter (articles : list Article)
    (required_tags : list string) (year : Z) :
  filter_articles_by_criteria articles required_tags year
  = List.filter (keeps required_tags year) articles.
Proof. unfold filter_articles_by_criteria. apply filter_loop_filter. Qed.

(** C1: the filter returns, in their input order, exactly the records whose
    date is not empty and starts with the year in decimal and for which every
    required category matches an entry of the record by the substring test in
    either direction, letter case ignored and hyphen and underscore read as a
    space. *)
Theorem filter_articles_by_criteria_spec (articles : list Article)
    (required_tags : list string) (year : Z) :
  exists keep : Article -> bool,
    (forall a, keep a = true <-> meets_criteria required_tags year a)
    /\ filter_articles_by_criteria articles required_tags year
       = List.filter keep articles.
Proof.
  exists (keeps required_tags year). split.
  - intros a. apply keeps_spec.
  - apply filter_articles_filter.
Qed.

(** C10: with no required category the filter returns, in their input order,
    exactly the records that pass the year test. *)
Theorem filter_articles_without_required_tags (articles : list Article)
    (year : Z) :
  exists keep : Article -> bool,
    (forall a, keep a = true <-> published_in year a)
    /\ filter_articles_by_criteria articles [] year = List.filter keep articles.
Proof.
  exists (keeps [] year). split.
  - intros a. rewrite keeps_spec. unfold meets_criteria. split.
    + tauto.
    + intros H. split; [exact H | intros req []].
  - apply filter_articles_filter.
Qed.

(** The conjunction is over all required categories, and hyphens match
    spaces. *)
Example filter_is_conjunctive :
  filter_articles_by_criteria
    [record_of "2025-06-01" ["ux-design"];
     record_of "2025-06-01" ["ux design"; "artificial intelligence"]]
    ["ux-design"; "artificial-intelligence"] 2025
  = [record_of "2025-06-01" ["ux design"; "artificial intelligence"]].
Proof. reflexivity. Qed.

Example filter_year_test :
  filter_articles_by_criteria
    [record_of "2025-06-01" []; record_of "2024-12-31" []; record_of "" []]
    [] 2025
  = [record_of "2025-06-01" []].
Proof. reflexivity. Qed.

(** ** Date Normalizer *)

Section DateNormalizerFacts.
Variable fromisoformat : string -> option date.
Variable strptime : string -> string -> option date.

Let normalize := _normalize_date fromisoformat strptime.

Lemma try_formats_cases (date_str : string) (fmts : list string) :
  try_formats strptime date_str fmts = date_str
  \/ exists dt, try_formats strptime date_str fmts = strftime_ymd dt.
Proof.
  induction fmts as [|fmt fmts IH]; cbn [try_formats]; [now left |].
  destruct (strptime (Py.strip date_str) fmt) as [dt|]; [| exact IH].
  right. now exists dt.
Qed.

Lemma try_formats_none (date_str : string) (fmts : list string) :
  (forall fmt, In fmt fmts -> strptime (Py.strip date_str) fmt = None) ->
  try_formats strptime date_str fmts = date_str.
Proof.
  induction fmts as [|fmt fmts IH]; intros H; cbn [try_formats];
    [reflexivity |].
  rewrite (H fmt) by now left. apply IH. intros f Hf. apply H. now right.
Qed.

(** What the normalizer can return: the empty string, a canonical date, or
    the input without its time of day and offset. *)
Lemma normalize_date_cases (date_str : string) :
  normalize date_str = ""
  \/ (exists dt, normalize date_str = strftime_ymd dt)
  \/ normalize date_str = without_time date_str.
Proof.
  unfold normalize, _normalize_date. fold (without_time date_str).
  destruct (Py.truthy date_str); cbn [negb]; [| now left].
  destruct (fromisoformat _) as [dt|].
  - right. left. now exists dt.
  - destruct (try_formats_cases (without_time date_str) formats) as [E|E].
    + right. right. exact E.
    + right. left. exact E.
Qed.

(** When no parse succeeds the normalizer returns the input without its
    time of day and offset. *)
Lemma normalize_date_unparsed (date_str : string) :
  date_str <> "" ->
  fromisoformat (Py.remove "Z" (without_time date_str)) = None ->
  (forall fmt, In fmt formats ->
     strptime (Py.strip (without_time date_str)) fmt = None) ->
  normalize date_str = without_time date_str.
Proof.
  intros Hne Hiso Hfmt. unfold normalize, _normalize_date.
  fold (without_time date_str).
  apply truthy_spec in Hne. rewrite Hne. cbn [negb]. rewrite Hiso.
  now apply try_formats_none.
Qed.

End DateNormalizerFacts.

Lemma split_head_absent (sep : ascii) (s : string) :
  Py.contains (String sep "") s = false -> Py.split_head sep s = s.
Proof.
  induction s as [|c s IH]; [reflexivity |].
  cbn [Py.contains Py.startswith Py.split_head].
  rewrite Ascii.eqb_sym.
  destruct (Ascii.eqb c sep); cbn [andb orb]; [discriminate |].
  intros H. now rewrite IH.
Qed.

(** An input with neither [T] nor [+] is held unchanged. *)
Lemma without_time_plain (date_str : string) :
  Py.contains "T" date_str = false -> Py.contains "+" date_str = false ->
  without_time date_str = date_str.
Proof.
  intros HT Hplus. unfold without_time. rewrite HT.
  now apply split_head_absent.
Qed.

Lemma strftime_ymd_hyphen (dt : date) : is_substring "-" (strftime_ymd dt).
Proof.
  exists (zero_padded 4 (year dt)),
         (zero_padded 2 (month dt) ++ "-" ++ zero_padded 2 (day dt)).
  reflexivity.
Qed.

(** C2 fails on an input with a [T] that is no date: the text from the
    first [T] on is cut off before the parsers run, and what is returned when
    they fail is the cut text.  Whatever the parsers of the library do,
    ["Tuesday"] does not come back; with parsers that reject the empty string
    the result is the empty string. *)
Theorem normalize_date_returns_cut_input :
  (forall fromisoformat strptime,
     _normalize_date fromisoformat strptime "Tuesday" <> "Tuesday")
  /\ without_time "Tuesday" = ""
  /\ normalize_date_ref "Tuesday" = ""
  /\ normalize_date_ref "1+1" = "1"
  /\ RefDatetime.fromisoformat "Tuesday" = None
  /\ Forall (fun fmt => RefDatetime.strptime "Tuesday" fmt = None) formats.
Proof.
  split.
  { intros iso strp.
    destruct (normalize_date_cases iso strp "Tuesday") as [E | [[dt E] | E]];
      rewrite E.
    - discriminate.
    - intros H. pose proof (strftime_ymd_hyphen dt) as Hh.
      rewrite H in Hh. apply contains_spec in Hh. discriminate.
    - discriminate. }
  split; [reflexivity |]. split; [reflexivity |]. split; [reflexivity |].
  split; [reflexivity |]. repeat constructor.
Qed.

(** The examples of the specification, run with the reference parsers. *)
Example normalize_date_examples :
  normalize_date_ref "2025-03-14" = "2025-03-14"
  /\ normalize_date_ref "14/03/2025" = "2025-03-14"
  /\ normalize_date_ref "" = ""
  /\ normalize_date_ref "not a date" = "not a date"
  /\ normalize_date_ref "2025-03-14T09:30:00+00:00" = "2025-03-14"
  /\ normalize_date_ref "March 5, 2025" = "2025-03-05".
Proof. repeat split; reflexivity. Qed.

(** With the reference parsers, an input with neither [T] nor [+] that no
    parser accepts comes back unchanged. *)
Lemma normalize_date_ref_unparsed (date_str : string) :
  date_str <> "" ->
  Py.contains "T" date_str = false -> Py.contains "+" date_str = false ->
  RefDatetime.fromisoformat (Py.remove "Z" date_str) = None ->
  (forall fmt, In fmt formats ->
     RefDatetime.strptime (Py.strip date_str) fmt = None) ->
  normalize_date_ref date_str = date_str.
Proof.
  intros Hne HT Hplus Hiso Hfmt.
  pose proof (without_time_plain _ HT Hplus) as Hw.
  unfold normalize_date_ref.
  rewrite normalize_date_unparsed; rewrite ?Hw; auto.
Qed.

(** ** Metadata Extractor *)

Section ExtractorFacts.
Context {World Page : Type}.
Variable goto : string -> World -> option Page * World.
Variable jsonld : Page -> World -> option Article * World.
Variable html : Page -> World -> option Article * World.

Let extract := extract_article_metadata goto jsonld html.

Lemma needs_fallback_spec (metadata : option Article) :
  needs_fallback metadata = true <-> nothing_or_untitled metadata.
Proof.
  unfold nothing_or_untitled. destruct metadata as [m|]; cbn [needs_fallback].
  - rewrite negb_true_iff. split.
    + intros H. right. exists m. split; [reflexivity |].
      destruct (titulo m) eqn:E; [reflexivity |].
      unfold Py.truthy in H. cbn in H. discriminate.
    + intros [H | (m' & [= <-] & Ht)]; [discriminate |].
      unfold Py.truthy. now rewrite Ht.
  - split; [now left | reflexivity].
Qed.

(** The run of the Extractor, case by case. *)
Lemma extract_run (target : string) (w : World) :
  extract target w =
  match goto target w with
  | (None, w1) => (None, [EvGoto target; EvClose], w1)
  | (Some page, w1) =>
      match jsonld page w1 with
      | (metadata, w2) =>
          if needs_fallback metadata then
            match html page w2 with
            | (metadata', w3) =>
                (option_map (stamp target) metadata',
                 [EvGoto target; EvSettle 2000; EvJsonld; EvHtml; EvClose],
                 w3)
            end
          else
            (option_map (stamp target) metadata,
             [EvGoto target; EvSettle 2000; EvJsonld; EvClose], w2)
      end
  end.
Proof.
  unfold extract, extract_article_metadata, bind, perform, emit, ret.
  destruct (goto target w) as [[page|] w1]; [| reflexivity].
  destruct (jsonld page w1) as [metadata w2].
  destruct (needs_fallback metadata).
  - destruct (html page w2) as [[m|] w3]; reflexivity.
  - destruct metadata; reflexivity.
Qed.

(** C7: when the page loads, the structured-data tier runs, and the markup
    tier runs if and only if the structured-data tier gave nothing or a
    record without title; when the page does not load neither tier runs and
    nothing is returned.  A record that is returned carries the origin tag
    and the input reference, whichever tier made it. *)
Theorem extractor_fallback_and_stamp (target : string) (w : World) :
  let run := extract_article_metadata goto jsonld html target w in
  match goto target w with
  | (Some page, w1) =>
      In EvJsonld (snd (fst run))
      /\ (In EvHtml (snd (fst run))
          <-> nothing_or_untitled (fst (jsonld page w1)))
      /\ count_occ TierEvent_eq_dec (snd (fst run)) EvHtml <= 1
  | (None, _) =>
      ~ In EvJsonld (snd (fst run)) /\ ~ In EvHtml (snd (fst run))
      /\ fst (fst run) = None
  end
  /\ match fst (fst run) with
     | Some a => fonte a = "medium" /\ url a = target
     | None => True
     end.
Proof.
  cbv zeta. fold extract. rewrite extract_run.
  destruct (goto target w) as [[page|] w1].
  - destruct (jsonld page w1) as [metadata w2]. cbn [fst].
    pose proof (needs_fallback_spec metadata) as Hf.
    destruct (needs_fallback metadata).
    + destruct (html page w2) as [[m|] w3]; cbn [fst snd option_map].
      * split; [| split; reflexivity].
        split; [cbn; tauto |]. split; [| cbn; lia].
        split; [intros _; now apply Hf | intros _; cbn; tauto].
      * split; [| exact I].
        split; [cbn; tauto |]. split; [| cbn; lia].
        split; [intros _; now apply Hf | intros _; cbn; tauto].
    + cbn [fst snd]. split.
      * split; [cbn; tauto |]. split; [| cbn; lia].
        split.
        -- intros [H | [H | [H | [H | []]]]]; discriminate.
        -- intros H. apply Hf in H. discriminate.
      * destruct metadata as [m|]; cbn [option_map]; [split; reflexivity | exact I].
  - cbn [fst snd]. split; [| exact I].
    split; [intros [H | [H | []]]; discriminate |].
    split; [intros [H | [H | []]]; discriminate | reflexivity].
Qed.

End ExtractorFacts.

(** ** Batch Orchestrator *)

Section BatchFacts.
Context {World Page : Type}.
Variable goto : string -> World -> option Page * World.
Variable jsonld : Page -> World -> option Article * World.
Variable html : Page -> World -> option Article * World.

Let extract := extract_article_metadata goto jsonld html.
Let batch_loop' := batch_loop goto jsonld html.
Let sequence := one_by_one goto jsonld html.


Lemma one_by_one_length (urls : list string) (w : World) :
  length (fst (sequence urls w)) = length urls.
Proof.
  revert w. induction urls as [|target rest IH]; intros w; [reflexivity |].
  unfold sequence in *. cbn [one_by_one].
  destruct (extract_article_metadata goto jsonld html target w)
    as [[result inner] w1].
  specialize (IH w1). destruct (one_by_one goto jsonld html rest w1).
  cbn [fst length] in *. now rewrite IH.
Qed.

(** The loop from index [i] on, with [total - i] references left after the
    current one. *)
Lemma batch_loop_run (total : nat) (delay_between : N) :
  forall urls i results w,
    i + length urls = S total ->
    batch_loop' total delay_between i urls results w =
    let events := fst (sequence urls w) in
    ((results ++ usable_records (flat_map outcome_of events))%list,
     intersperse (EvSleep delay_between) events,
     snd (sequence urls w)).
Proof.
  induction urls as [|target rest IH]; intros i results w Hlen.
  - cbn. now rewrite app_nil_r.
  - unfold batch_loop', sequence in *.
    cbn [batch_loop one_by_one length] in *.
    unfold bind at 1. unfold call_extractor.
    destruct (extract_article_metadata goto jsonld html target w)
      as [[result inner] w1].
    unfold bind at 1.
    assert (Hrest : (i <? total)%nat = negb (Nat.eqb (length rest) 0)).
    { destruct (Nat.ltb_spec i total); destruct rest; cbn in *; try lia;
        reflexivity. }
    rewrite Hrest.
    set (results' := match result with
                     | Some m =>
                         if usable result then (results ++ [m])%list
                         else results
                     | None => results
                     end).
    destruct rest as [|next rest'].
    + cbn [length Nat.eqb negb ret one_by_one fst snd flat_map
           outcome_of app intersperse batch_loop].
      f_equal. f_equal.
      unfold results'. destruct result as [m|]; cbn [usable usable_records].
      * destruct (Py.truthy (titulo m)); [reflexivity | now rewrite app_nil_r].
      * now rewrite app_nil_r.
    + cbn [length Nat.eqb negb emit].
      specialize (IH (S i) results' w1 ltac:(cbn [length] in *; lia)).
      cbv zeta in IH. rewrite IH.
      destruct (one_by_one goto jsonld html (next :: rest') w1)
        as [events w2] eqn:Hseq.
      assert (Hne : exists e events', events = e :: events').
      { cbn [one_by_one] in Hseq.
        destruct (extract_article_metadata goto jsonld html next w1)
          as [[r2 i2] w2'].
        destruct (one_by_one goto jsonld html rest' w2').
        injection Hseq as <- _. eauto. }
      destruct Hne as (e & events' & ->).
      cbn [fst snd flat_map outcome_of app intersperse].
      f_equal. f_equal.
      unfold results'. destruct result as [m|]; cbn [usable usable_records].
      * destruct (Py.truthy (titulo m)); [| reflexivity].
        now rewrite <- app_assoc.
      * reflexivity.
Qed.



End BatchFacts.

(** ** End to end *)

(** Four references: A is read from its structured data, B has no title in
    either tier and is dropped, C is read from its markup, D does not load.
    The pacing delay sits between the runs only. *)
Example toy_batch_run :
  toy_batch [ref_A; ref_B; ref_C; ref_D] 2500 0 =
  ([stamp ref_A record_A; stamp ref_C record_C],
   [EvExtract ref_A [EvGoto ref_A; EvSettle 2000; EvJsonld; EvClose]
              (Some (stamp ref_A record_A));
    EvSleep 2500;
    EvExtract ref_B [EvGoto ref_B; EvSettle 2000; EvJsonld; EvHtml; EvClose]
              (Some (stamp ref_B ARTICLE_TEMPLATE));
    EvSleep 2500;
    EvExtract ref_C [EvGoto ref_C; EvSettle 2000; EvJsonld; EvHtml; EvClose]
              (Some (stamp ref_C record_C));
    EvSleep 2500;
    EvExtract ref_D [EvGoto ref_D; EvClose] None],
   4).
Proof. reflexivity. Qed.

(** Filtering the batch output for 2025 and both required categories leaves
    record A alone. *)
Example toy_pipeline :
  filter_articles_by_criteria
    (fst (fst (toy_batch [ref_A; ref_B; ref_C] 2500 0)))
    ["ux-design"; "artificial-intelligence"] 2025
  = [stamp ref_A record_A].
Proof. reflexivity. Qed.

(** * Further properties of the code *)

(** ** Harvest and canonical forms *)

Lemma before_query_or_fragment_clean (s : string) :
  all_chars (fun c => negb (Ascii.eqb c "?" || Ascii.eqb c "#"))
            (before_query_or_fragment s) = true.
Proof.
  induction s as [|c s IH]; cbn [before_query_or_fragment]; [reflexivity |].
  destruct (Ascii.eqb c "?" || Ascii.eqb c "#") eqn:E; [reflexivity |].
  cbn [all_chars]. now rewrite E, IH.
Qed.

(** X1: the harvest of a document is exactly the set of canonical forms of
    its hrefs that the classifier accepts; no member holds a [?] or a [#], and
    the old-content flag is never raised. *)
Theorem harvest_characterized (hrefs : list string) (x : string) :
  (x ∈ fst (_extract_article_links hrefs)
   <-> exists href, In href hrefs /\ _is_article_url href = true
                    /\ x = _normalize_url href)
  /\ (x ∈ fst (_extract_article_links hrefs)
      -> all_chars (fun c => negb (Ascii.eqb c "?" || Ascii.eqb c "#")) x = true)
  /\ snd (_extract_article_links hrefs) = false.
Proof.
  assert (Hiff : x ∈ fst (_extract_article_links hrefs)
                 <-> exists href, In href hrefs /\ _is_article_url href = true
                                  /\ x = _normalize_url href).
  { unfold _extract_article_links. cbn [fst].
    rewrite fold_add_href_elem. split.
    - intros [H | (href & Hin & _ & Ha & Hx)]; [set_solver |]. now exists href.
    - intros (href & Hin & Ha & Hx). right. exists href.
      split; [exact Hin |]. split; [| split; assumption].
      intros ->. discriminate. }
  split; [exact Hiff |]. split; [| reflexivity].
  intros H. apply Hiff in H as (href & _ & _ & ->).
  rewrite normalize_url_words. apply before_query_or_fragment_clean.
Qed.

Lemma before_query_or_fragment_cut (x q : string) (c : ascii) :
  Ascii.eqb c "?" || Ascii.eqb c "#" = true ->
  before_query_or_fragment (x ++ String c q) = before_query_or_fragment x.
Proof.
  intros Hc. induction x as [|d x IH]; cbn [String.append before_query_or_fragment].
  - now rewrite Hc.
  - destruct (Ascii.eqb d "?" || Ascii.eqb d "#"); [reflexivity |].
    now rewrite IH.
Qed.

(** X2: a query string or a fragment added to a reference does not change
    its canonical form, so two hrefs that differ in these only are one
    reference. *)
Theorem normalize_url_ignores_query_and_fragment (x q : string) :
  _normalize_url (x ++ String "?" q) = _normalize_url x
  /\ _normalize_url (x ++ String "#" q) = _normalize_url x.
Proof.
  rewrite !normalize_url_words.
  split; now apply before_query_or_fragment_cut.
Qed.


(** ** Runs of the collector *)

Lemma merge_links_elem (st : LoopState) (new_urls : gset string) (x : string) :
  x ∈ collected_urls (merge_links st new_urls) ->
  x ∈ collected_urls st \/ x ∈ new_urls.
Proof.
  unfold merge_links. destruct (_ <? _)%nat; cbn [collected_urls].
  - rewrite elem_of_union. tauto.
  - tauto.
Qed.

Lemma scroll_loop_provenance (max_scrolls : nat) (feed : Feed) :
  forall fuel st st' r,
    scroll_loop max_scrolls feed fuel st = Some (st', r) ->
    forall x, x ∈ collected_urls st' ->
      x ∈ collected_urls st
      \/ exists i snap,
           scroll_count st < i <= scroll_count st'
           /\ scrolled feed i = Some snap /\ x ∈ harvested snap.
Proof.
  induction fuel as [|fuel IH]; intros st st' r Hrun x Hx; [discriminate Hrun |].
  rewrite scroll_loop_step in Hrun.
  destruct ((scroll_count st <? max_scrolls)%nat && negb (old_content_found st)).
  2: { injection Hrun as <- _. now left. }
  destruct (scrolled feed (S (scroll_count st))) as [snap|] eqn:Hsnap.
  2: { injection Hrun as <- _. now left. }
  cbv zeta in Hrun.
  set (st1 := merge_links (bump st) (harvested snap)) in *.
  assert (Hc1 : scroll_count st1 = S (scroll_count st))
    by (unfold st1; now rewrite merge_links_scroll_count).
  assert (Hstep : forall y, y ∈ collected_urls st1 ->
            y ∈ collected_urls st
            \/ exists i snap',
                 scroll_count st < i <= scroll_count st1
                 /\ scrolled feed i = Some snap' /\ y ∈ harvested snap').
  { intros y Hy. apply merge_links_elem in Hy as [Hy | Hy]; [now left |].
    right. exists (S (scroll_count st)), snap. split; [lia | now split]. }
  destruct (6 <=? no_new_content_count st1)%nat.
  - injection Hrun as <- _. now apply Hstep.
  - pose proof (scroll_loop_count _ _ _ _ _ _ Hrun) as [Hmono _].
    destruct (IH _ _ _ Hrun x Hx) as [H1 | (i & snap' & Hi & Hs & Hin)].
    + destruct (Hstep x H1) as [H0 | (i & snap' & Hi & Hs & Hin)];
        [now left |].
      right. exists i, snap'. split; [lia | now split].
    + right. exists i, snap'. split; [lia | now split].
Qed.

(** X4: every reference a run returns is the canonical form of an href that
    the classifier accepted in the snapshot of some iteration of that run. *)
Theorem collected_references_were_harvested (feed : Feed) (x : string) :
  x ∈ collected_after MAX_SCROLLS feed ->
  exists i snap href,
    1 <= i <= MAX_SCROLLS
    /\ scrolled feed i = Some snap
    /\ In href (snap_hrefs snap)
    /\ _is_article_url href = true
    /\ x = _normalize_url href.
Proof.
  unfold collected_after, collect_with_cap.
  destruct (landing feed); [| cbn; set_solver].
  destruct (scroll_loop MAX_SCROLLS feed (S MAX_SCROLLS) initial_state)
    as [[st r]|] eqn:Hrun; [| set_solver].
  intros Hx.
  pose proof (scroll_loop_count _ _ _ _ _ _ Hrun) as [_ Hbound].
  cbn [scroll_count initial_state] in Hbound.
  destruct (scroll_loop_provenance _ _ _ _ _ _ Hrun x Hx)
    as [H0 | (i & snap & Hi & Hs & Hin)].
  - cbn in H0. set_solver.
  - apply harvested_elem in Hin as (href & Hh & Ha & ->).
    exists i, snap, href. cbn [scroll_count initial_state] in Hi.
    split; [lia |]. repeat split; assumption.
Qed.

Lemma collected_references_were_harvested_witness :
  ref_a ∈ collected_after MAX_SCROLLS stalled_feed
  /\ exists i snap href,
       1 <= i <= MAX_SCROLLS
       /\ scrolled stalled_feed i = Some snap
       /\ In href (snap_hrefs snap)
       /\ _is_article_url href = true
       /\ ref_a = _normalize_url href.
Proof.
  assert (H : ref_a ∈ collected_after MAX_SCROLLS stalled_feed)
    by (vm_compute; reflexivity).
  split; [exact H |].
  exact (collected_references_were_harvested stalled_feed ref_a H).
Defined.

Lemma merge_links_counter_le (st : LoopState) (new_urls : gset string) :
  no_new_content_count (merge_links st new_urls)
  <= S (no_new_content_count st).
Proof.
  unfold merge_links. destruct (_ <? _)%nat; cbn [no_new_content_count]; lia.
Qed.

Lemma scroll_loop_counters (max_scrolls : nat) (feed : Feed) :
  forall fuel st st' r,
    scroll_loop max_scrolls feed fuel st = Some (st', r) ->
    old_content_found st = false ->
    no_new_content_count st < 6 ->
    no_new_content_count st <= scroll_count st ->
    scroll_count st <= max_scrolls ->
    no_new_content_count st' <= scroll_count st'
    /\ (r = StopStale -> no_new_content_count st' = 6)
    /\ (r <> StopStale -> no_new_content_count st' < 6)
    /\ (r = StopBudget -> scroll_count st' = max_scrolls).
Proof.
  induction fuel as [|fuel IH]; intros st st' r Hrun Hold Hn Hnc Hc;
    [discriminate Hrun |].
  rewrite scroll_loop_step, Hold in Hrun.
  destruct (Nat.ltb_spec (scroll_count st) max_scrolls) as [Hlt|Hge];
    cbn [andb negb] in Hrun.
  2: { injection Hrun as <- <-.
       repeat split; intros; try lia; try discriminate; congruence. }
  destruct (scrolled feed (S (scroll_count st))) as [snap|].
  2: { injection Hrun as <- <-. cbn [scroll_count no_new_content_count bump].
       repeat split; intros; try lia; try discriminate; congruence. }
  cbv zeta in Hrun.
  set (st1 := merge_links (bump st) (harvested snap)) in *.
  assert (Hc1 : scroll_count st1 = S (scroll_count st))
    by (unfold st1; now rewrite merge_links_scroll_count).
  assert (Ho1 : old_content_found st1 = false)
    by (unfold st1; now rewrite merge_links_old_content).
  pose proof (merge_links_counter_le (bump st) (harvested snap)) as Hle.
  fold st1 in Hle. cbn [no_new_content_count bump] in Hle.
  destruct (Nat.leb_spec 6 (no_new_content_count st1)) as [Hs|Hs].
  - injection Hrun as <- <-.
    repeat split; intros; try lia; try discriminate; congruence.
  - apply (IH _ _ _ Hrun Ho1); lia.
Qed.

(** X5: every run of the collector returns, after at most 150 iterations.  It
    ends on its budget only at iteration 150, on the exhaustion signal exactly
    when the counter of iterations without gain stands at six, which takes at
    least six iterations, and never on the stale-content signal. *)
Theorem collector_run_bounded (feed : Feed) :
  exists st r,
    collect_links_from_tag feed = Some (st, r)
    /\ scroll_count st <= MAX_SCROLLS
    /\ (r = StopBudget -> scroll_count st = MAX_SCROLLS)
    /\ (r = StopStale <-> no_new_content_count st = 6)
    /\ (r = StopStale -> 6 <= scroll_count st)
    /\ r <> StopOld.
Proof.
  unfold collect_links_from_tag, collect_with_cap.
  destruct (landing feed).
  - destruct (scroll_loop_total MAX_SCROLLS feed (S MAX_SCROLLS) initial_state)
      as [[st r] Hrun]; [cbn [scroll_count initial_state]; lia |].
    exists st, r. split; [exact Hrun |].
    pose proof (scroll_loop_count _ _ _ _ _ _ Hrun) as [_ Hbound].
    pose proof (scroll_loop_never_old _ _ _ _ _ _ Hrun eq_refl) as Hold.
    destruct (scroll_loop_counters _ _ _ _ _ _ Hrun eq_refl)
      as (Hnc & Hstale & Hfresh & Hbudget);
      cbn [scroll_count no_new_content_count initial_state]; try lia.
    cbn [scroll_count initial_state] in Hbound.
    split; [lia |]. split; [exact Hbudget |]. split.
    + split; [exact Hstale |]. intros H6.
      destruct (decide (r = StopStale)) as [|Hne]; [assumption |].
      apply Hfresh in Hne. lia.
    + split; [| exact Hold]. intros Hr. apply Hstale in Hr. lia.
  - exists initial_state, StopFault. split; [reflexivity |].
    cbn [scroll_count no_new_content_count initial_state].
    split; [lia |]. split; [discriminate |]. split.
    + split; discriminate.
    + split; discriminate.
Qed.

(** X6: a renderer fault at iteration [k + 1] loses nothing: the run returns
    what had been accumulated in the first [k] iterations. *)
Theorem fault_keeps_accumulated (feed : Feed) (k : nat) :
  k < MAX_SCROLLS ->
  scrolled feed (S k) = None ->
  collected_after MAX_SCROLLS feed = collected_after k feed.
Proof.
  intros Hk Hfault. unfold collected_after, collect_with_cap.
  destruct (landing feed); [| reflexivity].
  destruct (scroll_loop_total k feed (S k) initial_state)
    as [[stk rk] Hrun]; [cbn [scroll_count initial_state]; lia |].
  rewrite Hrun.
  destruct (scroll_loop_cap k MAX_SCROLLS feed ltac:(lia) _ _ _ _ Hrun
              eq_refl ltac:(cbn [scroll_count initial_state]; lia))
    as [[Hr Hsame] | (Hr & Hcount & Hold & Hmore)].
  - rewrite (scroll_loop_fuel _ _ _ _ _ Hsame (S MAX_SCROLLS)) by lia.
    reflexivity.
  - specialize (Hmore (S (MAX_SCROLLS - k))).
    cbn [scroll_count initial_state] in Hmore.
    replace (scroll_count stk - 0 + S (MAX_SCROLLS - k))
      with (S MAX_SCROLLS) in Hmore by lia.
    rewrite Hmore, scroll_loop_step, Hold, Hcount, Hfault.
    apply Nat.ltb_lt in Hk. rewrite Hk. reflexivity.
Qed.

Lemma fault_keeps_accumulated_witness :
  2 < MAX_SCROLLS
  /\ scrolled failing_feed 3 = None
  /\ collected_after MAX_SCROLLS failing_feed = collected_after 2 failing_feed.
Proof.
  assert (H2 : 2 < MAX_SCROLLS) by (unfold MAX_SCROLLS; lia).
  split; [exact H2 |]. split; [reflexivity |].
  exact (fault_keeps_accumulated failing_feed 2 H2 eq_refl).
Defined.

(** X7: the counter of iterations without gain is reset exactly when the
    merge adds a reference to the accumulator, and goes up by one exactly
    when the accumulator stays as it was. *)
Theorem counter_reset_iff_gain (st : LoopState) (new_urls : gset string) :
  collected_urls st ⊆ collected_urls (merge_links st new_urls)
  /\ (no_new_content_count (merge_links st new_urls) = 0
      <-> collected_urls (merge_links st new_urls) <> collected_urls st)
  /\ (no_new_content_count (merge_links st new_urls)
      = S (no_new_content_count st)
      <-> collected_urls (merge_links st new_urls) = collected_urls st).
Proof.
  split; [apply merge_links_grows |].
  destruct (merge_links_counter st new_urls) as [[Hsame Hn] | [Hgain Hn]];
    rewrite Hn.
  - split; [split; [discriminate | contradiction] | tauto].
  - assert (Hne : collected_urls (merge_links st new_urls) <> collected_urls st)
      by (intros E; rewrite E in Hgain; lia).
    split; [tauto | split; [discriminate | contradiction]].
Qed.

Lemma harvested_mono (s1 s2 : Snapshot) :
  incl (snap_hrefs s1) (snap_hrefs s2) -> harvested s1 ⊆ harvested s2.
Proof.
  intros Hincl x Hx. apply harvested_elem in Hx as (href & Hin & Ha & ->).
  apply harvested_elem. exists href. split; [now apply Hincl | now split].
Qed.

Lemma scroll_loop_growing (max_scrolls : nat) (feed : Feed) :
  only_grows feed ->
  forall fuel st st' r,
    scroll_loop max_scrolls feed fuel st = Some (st', r) ->
    (forall i snap, 1 <= i <= scroll_count st -> scrolled feed i = Some snap ->
                    harvested snap ⊆ collected_urls st) ->
    (forall j snap, scroll_count st < j -> scrolled feed j = Some snap ->
                    collected_urls st ⊆ harvested snap) ->
    forall i snap, 1 <= i <= scroll_count st' -> scrolled feed i = Some snap ->
                   harvested snap ⊆ collected_urls st'.
Proof.
  intros Hgrow.
  induction fuel as [|fuel IH]; intros st st' r Hrun Hseen Hlater;
    [discriminate Hrun |].
  rewrite scroll_loop_step in Hrun.
  destruct ((scroll_count st <? max_scrolls)%nat && negb (old_content_found st)).
  2: { injection Hrun as <- _. exact Hseen. }
  destruct (scrolled feed (S (scroll_count st))) as [snap|] eqn:Hsnap.
  2: { injection Hrun as <- _. cbn [scroll_count collected_urls bump].
       intros i snap' Hi Hs.
       destruct (decide (i = S (scroll_count st))) as [->|Hne]; [congruence |].
       apply (Hseen i); [lia | exact Hs]. }
  cbv zeta in Hrun.
  set (st1 := merge_links (bump st) (harvested snap)) in *.
  assert (Hc1 : scroll_count st1 = S (scroll_count st))
    by (unfold st1; now rewrite merge_links_scroll_count).
  assert (Hsub : collected_urls st ⊆ harvested snap)
    by (apply (Hlater (S (scroll_count st))); [lia | exact Hsnap]).
  assert (Hcoll : collected_urls st1 = harvested snap).
  { unfold st1. rewrite merge_links_cumulative by exact Hsub.
    cbn [collected_urls bump]. now apply subseteq_union_1_L. }
  assert (Hseen1 : forall i snap', 1 <= i <= scroll_count st1 ->
            scrolled feed i = Some snap' ->
            harvested snap' ⊆ collected_urls st1).
  { intros i snap' Hi Hs. rewrite Hcoll.
    apply (Hgrow i (S (scroll_count st)) snap' snap); [lia | exact Hs | exact Hsnap]. }
  assert (Hlater1 : forall j snap', scroll_count st1 < j ->
            scrolled feed j = Some snap' ->
            collected_urls st1 ⊆ harvested snap').
  { intros j snap' Hj Hs. rewrite Hcoll.
    apply (Hgrow (S (scroll_count st)) j snap snap'); [lia | exact Hsnap | exact Hs]. }
  destruct (6 <=? no_new_content_count st1)%nat.
  - injection Hrun as <- _. exact Hseen1.
  - exact (IH _ _ _ Hrun Hseen1 Hlater1).
Qed.

(** X8: on a document that only grows, no reference that a snapshot of the
    run showed is missing from the result. *)
Theorem growing_document_loses_nothing (feed : Feed) (i : nat)
    (snap : Snapshot) :
  only_grows feed ->
  1 <= i <= iterations feed ->
  scrolled feed i = Some snap ->
  harvested snap ⊆ collected_after MAX_SCROLLS feed.
Proof.
  intros Hgrow Hi Hs.
  unfold iterations, collected_after, collect_links_from_tag, collect_with_cap in *.
  destruct (landing feed); [| cbn [scroll_count initial_state] in Hi; lia].
  destruct (scroll_loop MAX_SCROLLS feed (S MAX_SCROLLS) initial_state)
    as [[st r]|] eqn:Hrun; [| lia].
  apply (scroll_loop_growing _ _ Hgrow _ _ _ _ Hrun) with (i := i);
    try assumption.
  - cbn [scroll_count initial_state]. intros; lia.
  - cbn [collected_urls initial_state]. intros; set_solver.
Qed.

Lemma stalled_feed_only_grows : only_grows stalled_feed.
Proof.
  intros i j si sj Hij Hi Hj.
  injection Hi as <-. injection Hj as <-.
  apply harvested_mono. cbn [snap_hrefs].
  destruct i as [|[|[|i]]]; destruct j as [|[|[|j]]]; try lia;
    cbn [Nat.leb]; intros x Hx; cbn in *; tauto.
Defined.

Lemma growing_document_loses_nothing_witness :
  only_grows stalled_feed
  /\ 1 <= 2 <= iterations stalled_feed
  /\ scrolled stalled_feed 2
     = Some {| snap_hrefs := [ref_a; ref_b]; snap_url := latest_url |}
  /\ harvested {| snap_hrefs := [ref_a; ref_b]; snap_url := latest_url |}
     ⊆ collected_after MAX_SCROLLS stalled_feed.
Proof.
  assert (Hi : 1 <= 2 <= iterations stalled_feed)
    by (split; [lia | vm_compute; lia]).
  split; [exact stalled_feed_only_grows |]. split; [exact Hi |].
  split; [reflexivity |].
  exact (growing_document_loses_nothing stalled_feed 2 _
           stalled_feed_only_grows Hi eq_refl).
Defined.

(** X9: a longer run never returns less: what is accumulated under an
    iteration cap is part of what is accumulated under any larger cap. *)
Theorem larger_cap_collects_more (k m : nat) (feed : Feed) :
  k <= m -> collected_after k feed ⊆ collected_after m feed.
Proof.
  intros Hkm. unfold collected_after, collect_with_cap.
  destruct (landing feed); [| reflexivity].
  destruct (scroll_loop_total k feed (S k) initial_state)
    as [[stk rk] Hrun]; [cbn [scroll_count initial_state]; lia |].
  rewrite Hrun.
  destruct (scroll_loop_cap k m feed Hkm _ _ _ _ Hrun
              eq_refl ltac:(cbn [scroll_count initial_state]; lia))
    as [[Hr Hsame] | (Hr & Hcount & Hold & Hmore)].
  - rewrite (scroll_loop_fuel _ _ _ _ _ Hsame (S m)) by lia. reflexivity.
  - specialize (Hmore (S m - k)).
    cbn [scroll_count initial_state] in Hmore.
    replace (scroll_count stk - 0 + (S m - k)) with (S m) in Hmore by lia.
    rewrite Hmore.
    destruct (scroll_loop_total m feed (S m - k) stk) as [[st' r'] Hrun'];
      [lia |].
    rewrite Hrun'. exact (scroll_loop_grows _ _ _ _ _ _ Hrun').
Qed.

Lemma larger_cap_collects_more_witness :
  1 <= 3
  /\ collected_after 1 stalled_feed ⊆ collected_after 3 stalled_feed.
Proof.
  assert (H : 1 <= 3) by lia.
  split; [exact H |].
  exact (larger_cap_collects_more 1 3 stalled_feed H).
Defined.

(** ** The Date Normalizer, further *)

Lemma contains_char (sep : ascii) (s : string) :
  Py.contains (String sep "") s
  = negb (all_chars (fun c => negb (Ascii.eqb c sep)) s).
Proof.
  induction s as [|c s IH]; [reflexivity |].
  cbn [Py.contains Py.startswith all_chars]. rewrite IH, (Ascii.eqb_sym sep c).
  destruct (Ascii.eqb c sep); cbn [andb orb negb]; [reflexivity |].
  reflexivity.
Qed.

Lemma all_chars_impl (P Q : ascii -> bool) (s : string) :
  (forall c, P c = true -> Q c = true) ->
  all_chars P s = true -> all_chars Q s = true.
Proof.
  intros HPQ. induction s as [|c s IH]; cbn [all_chars]; [reflexivity |].
  intros H. apply andb_true_iff in H as [Hc Hs].
  now rewrite (HPQ c Hc), IH.
Qed.

Lemma remove_absent (old : ascii) (s : string) :
  all_chars (fun c => negb (Ascii.eqb c old)) s = true -> Py.remove old s = s.
Proof.
  induction s as [|c s IH]; cbn [all_chars Py.remove]; [reflexivity |].
  intros H. apply andb_true_iff in H as [Hc Hs].
  apply negb_true_iff in Hc. now rewrite Hc, IH.
Qed.

Lemma split_head_cut (sep : ascii) (a b : string) :
  Py.split_head sep (a ++ String sep b) = Py.split_head sep a.
Proof.
  induction a as [|c a IH]; cbn [String.append Py.split_head].
  - now rewrite Ascii.eqb_refl.
  - destruct (Ascii.eqb c sep); [reflexivity | now rewrite IH].
Qed.

Lemma split_head_app (sep : ascii) (a b : string) :
  all_chars (fun c => negb (Ascii.eqb c sep)) a = true ->
  Py.split_head sep (a ++ b) = a ++ Py.split_head sep b.
Proof.
  induction a as [|c a IH]; cbn [all_chars String.append Py.split_head];
    [reflexivity |].
  intros H. apply andb_true_iff in H as [Hc Ha].
  apply negb_true_iff in Hc. now rewrite Hc, IH.
Qed.

Lemma without_time_free (s : string) :
  all_chars (fun c => negb (Ascii.eqb c "T")) (without_time s) = true
  /\ all_chars (fun c => negb (Ascii.eqb c "+")) (without_time s) = true.
Proof.
  unfold without_time. split; [| apply split_head_free].
  apply split_head_keeps.
  destruct (Py.contains "T" s) eqn:E; [apply split_head_free |].
  rewrite contains_char in E. now apply negb_false_iff in E.
Qed.

Lemma without_time_fixed (s : string) :
  all_chars (fun c => negb (Ascii.eqb c "T")) s = true ->
  all_chars (fun c => negb (Ascii.eqb c "+")) s = true ->
  without_time s = s.
Proof.
  intros HT Hplus. apply without_time_plain; rewrite contains_char.
  - now rewrite HT.
  - now rewrite Hplus.
Qed.

Lemma digits_of_uint (d : Decimal.uint) :
  all_chars RefDatetime.is_digit (NilEmpty.string_of_uint d) = true.
Proof. induction d; cbn [NilEmpty.string_of_uint all_chars]; auto. Qed.

Lemma zero_padded_digits (width n : nat) :
  all_chars date_char (zero_padded width n) = true.
Proof.
  unfold zero_padded. rewrite all_chars_app. apply andb_true_iff. split.
  - induction (width - _) as [|k IH]; [reflexivity | exact IH].
  - apply (all_chars_impl RefDatetime.is_digit).
    + intros c Hc. unfold date_char. now rewrite Hc.
    + unfold NilZero.string_of_uint.
      destruct (Nat.to_uint n) eqn:E; try (rewrite <- E; apply digits_of_uint).
      reflexivity.
Qed.

Lemma strftime_ymd_chars (dt : date) :
  all_chars date_char (strftime_ymd dt) = true.
Proof.
  unfold strftime_ymd.
  rewrite !all_chars_app, !zero_padded_digits. reflexivity.
Qed.

Lemma date_char_plain (c : ascii) :
  date_char c = true ->
  negb (Ascii.eqb c "T") = true /\ negb (Ascii.eqb c "+") = true
  /\ negb (Ascii.eqb c "Z") = true.
Proof.
  destruct c as [[] [] [] [] [] [] [] []]; cbn; intros H;
    try discriminate; repeat split.
Qed.

Lemma strftime_ymd_not_empty (dt : date) : strftime_ymd dt <> "".
Proof.
  intros E. pose proof (strftime_ymd_hyphen dt) as H. rewrite E in H.
  apply contains_spec in H. discriminate.
Qed.

Section DateNormalizerMore.
Variable fromisoformat : string -> option date.
Variable strptime : string -> string -> option date.

Let normalize := _normalize_date fromisoformat strptime.

(** The normalizer is a function of the input without its time of day and
    offset. *)
Lemma normalize_date_of_cut (s : string) :
  s <> "" ->
  normalize s =
  match fromisoformat (Py.remove "Z" (without_time s)) with
  | Some dt => strftime_ymd dt
  | None => try_formats strptime (without_time s) formats
  end.
Proof.
  intros Hne. apply truthy_spec in Hne.
  unfold normalize, _normalize_date. now rewrite Hne.
Qed.

Lemma try_formats_result (date_str : string) (fmts : list string) :
  (exists fmt dt, In fmt fmts /\ strptime (Py.strip date_str) fmt = Some dt
                  /\ try_formats strptime date_str fmts = strftime_ymd dt)
  \/ ((forall fmt, In fmt fmts -> strptime (Py.strip date_str) fmt = None)
      /\ try_formats strptime date_str fmts = date_str).
Proof.
  induction fmts as [|fmt fmts IH]; cbn [try_formats].
  - right. split; [intros fmt [] | reflexivity].
  - destruct (strptime (Py.strip date_str) fmt) as [dt|] eqn:E.
    + left. exists fmt, dt. split; [now left | now split].
    + destruct IH as [(f & dt & Hin & Hp & Hr) | [Hnone Hr]].
      * left. exists f, dt. split; [now right | now split].
      * right. split; [| exact Hr].
        intros f [<- | Hin]; [exact E | now apply Hnone].
Qed.

(** X10: whatever the parsers do, the normalizer returns the empty string,
    a canonical date that one of the parsers produced, or, when every parser
    failed, the input without its time of day and offset; in no case does
    the result hold a [T] or a [+]. *)
Theorem normalize_date_range (s : string) :
  (normalize s = ""
   \/ (exists dt, normalize s = strftime_ymd dt
         /\ (fromisoformat (Py.remove "Z" (without_time s)) = Some dt
             \/ exists fmt, In fmt formats
                  /\ strptime (Py.strip (without_time s)) fmt = Some dt))
   \/ (normalize s = without_time s
       /\ fromisoformat (Py.remove "Z" (without_time s)) = None
       /\ forall fmt, In fmt formats ->
            strptime (Py.strip (without_time s)) fmt = None))
  /\ Py.contains "T" (normalize s) = false
  /\ Py.contains "+" (normalize s) = false.
Proof.
  assert (Hclean : forall dt,
            Py.contains "T" (strftime_ymd dt) = false
            /\ Py.contains "+" (strftime_ymd dt) = false).
  { intros dt. rewrite !contains_char.
    pose proof (strftime_ymd_chars dt) as Hc.
    rewrite (all_chars_impl date_char _ _ (fun c H => proj1 (date_char_plain c H)) Hc).
    rewrite (all_chars_impl date_char _ _
               (fun c H => proj1 (proj2 (date_char_plain c H))) Hc).
    split; reflexivity. }
  destruct (String.eqb_spec s "") as [-> | Hne].
  { split; [now left | split; reflexivity]. }
  rewrite (normalize_date_of_cut s Hne).
  destruct (fromisoformat (Py.remove "Z" (without_time s))) as [dt|] eqn:Hiso.
  { split; [| apply Hclean]. right. left. exists dt. split; [reflexivity | now left]. }
  destruct (try_formats_result (without_time s) formats)
    as [(fmt & dt & Hin & Hp & Hr) | [Hnone Hr]]; rewrite Hr.
  - split; [| apply Hclean]. right. left. exists dt.
    split; [reflexivity |]. right. now exists fmt.
  - split; [right; right; split; [reflexivity | now split] |].
    destruct (without_time_free s) as [HT Hplus].
    rewrite !contains_char, HT, Hplus. split; reflexivity.
Qed.

(** X11: a time of day after [T], and an offset after [+], do not count:
    the normalizer returns for [d T rest] and for [d + rest] what it returns
    for [d] alone, when [d] is not empty and holds no [T]. *)
Theorem normalize_date_ignores_time (d rest : string) :
  d <> "" ->
  Py.contains "T" d = false ->
  normalize (d ++ String "T" rest) = normalize d
  /\ normalize (d ++ String "+" rest) = normalize d.
Proof.
  intros Hne HT.
  assert (HdT : all_chars (fun c => negb (Ascii.eqb c "T")) d = true).
  { rewrite contains_char in HT. now apply negb_false_iff in HT. }
  assert (Hne' : forall c, d ++ String c rest <> "")
    by (intros c; destruct d; [contradiction | discriminate]).
  assert (Hd : without_time d = Py.split_head "+" d)
    by (unfold without_time; now rewrite HT).
  rewrite !normalize_date_of_cut by auto.
  assert (E1 : without_time (d ++ String "T" rest) = without_time d).
  { rewrite Hd. unfold without_time.
    assert (Hc : Py.contains "T" (d ++ String "T" rest) = true)
      by (apply contains_spec; now exists d, rest).
    now rewrite Hc, split_head_cut, (split_head_fixed "T" d HdT). }
  assert (E2 : without_time (d ++ String "+" rest) = without_time d).
  { rewrite Hd. unfold without_time.
    destruct (Py.contains "T" (d ++ String "+" rest)).
    - rewrite (split_head_app "T" d _ HdT).
      cbn [Py.split_head]. change (Ascii.eqb "+" "T") with false.
      cbv iota. apply split_head_cut.
    - apply split_head_cut. }
  now rewrite E1, E2.
Qed.

(** X12: an input that is not empty, holds neither [T] nor [+], and that no
    parser accepts comes back unchanged. *)
Theorem normalize_date_plain_unchanged (s : string) :
  s <> "" ->
  Py.contains "T" s = false ->
  Py.contains "+" s = false ->
  fromisoformat (Py.remove "Z" s) = None ->
  (forall fmt, In fmt formats -> strptime (Py.strip s) fmt = None) ->
  normalize s = s.
Proof.
  intros Hne HT Hplus Hiso Hfmt.
  rewrite (normalize_date_of_cut s Hne), (without_time_plain s HT Hplus), Hiso.
  now apply try_formats_none.
Qed.

(** X13: with parsers that read back the canonical form of every date they
    produce, normalizing twice is normalizing once. *)
Theorem normalize_date_idempotent (s : string) :
  (forall x dt, fromisoformat x = Some dt ->
                fromisoformat (strftime_ymd dt) = Some dt) ->
  (forall x fmt dt, strptime x fmt = Some dt ->
                    fromisoformat (strftime_ymd dt) = Some dt) ->
  normalize (normalize s) = normalize s.
Proof.
  intros Hiso Hstrp.
  assert (Hcanon : forall dt, fromisoformat (strftime_ymd dt) = Some dt ->
            normalize (strftime_ymd dt) = strftime_ymd dt).
  { intros dt Hback.
    pose proof (strftime_ymd_chars dt) as Hc.
    rewrite (normalize_date_of_cut _ (strftime_ymd_not_empty dt)).
    rewrite without_time_fixed.
    - rewrite remove_absent, Hback; [reflexivity |].
      exact (all_chars_impl date_char _ _
               (fun c H => proj2 (proj2 (date_char_plain c H))) Hc).
    - exact (all_chars_impl date_char _ _
               (fun c H => proj1 (date_char_plain c H)) Hc).
    - exact (all_chars_impl date_char _ _
               (fun c H => proj1 (proj2 (date_char_plain c H))) Hc). }
  destruct (proj1 (normalize_date_range s))
    as [E | [(dt & E & [Hi | (fmt & _ & Hp)]) | (E & Hi & Hf)]]; rewrite E.
  - reflexivity.
  - apply Hcanon. exact (Hiso _ _ Hi).
  - apply Hcanon. exact (Hstrp _ _ _ Hp).
  - destruct (String.eqb_spec (without_time s) "") as [-> | Hne];
      [reflexivity |].
    destruct (without_time_free s) as [HT Hplus].
    rewrite (normalize_date_of_cut _ Hne), (without_time_fixed _ HT Hplus), Hi.
    now apply try_formats_none.
Qed.

End DateNormalizerMore.

(** The reference parsers read back what they print. *)

Lemma read_digits_app (n acc : nat) (s rest : string) (v : nat) :
  RefDatetime.read_digits n acc s = Some (v, "") ->
  RefDatetime.read_digits n acc (s ++ rest) = Some (v, rest).
Proof.
  revert acc s. induction n as [|n IH]; intros acc s; cbn [RefDatetime.read_digits].
  - intros [= <- ->]. reflexivity.
  - destruct s as [|c s]; [discriminate |]. cbn [String.append].
    destruct (RefDatetime.is_digit c); [apply IH | discriminate].
Qed.

Lemma read_padded_table (width bound : nat) :
  forallb (fun n => match RefDatetime.read_digits width 0 (zero_padded width n) with
                    | Some (v, EmptyString) => (v =? n)%nat
                    | _ => false
                    end) (seq 0 bound) = true ->
  forall n rest, n < bound ->
    RefDatetime.read_digits width 0 (zero_padded width n ++ rest) = Some (n, rest).
Proof.
  intros Htable n rest Hn.
  rewrite forallb_forall in Htable.
  specialize (Htable n ltac:(apply in_seq; lia)).
  apply read_digits_app.
  destruct (RefDatetime.read_digits width 0 (zero_padded width n))
    as [[v [|c r]]|]; try discriminate.
  apply Nat.eqb_eq in Htable. now subst.
Qed.

Lemma read_year (y : nat) (rest : string) :
  y < 100 * 100 ->
  RefDatetime.read_digits 4 0 (zero_padded 4 y ++ rest) = Some (y, rest).
Proof. apply read_padded_table. vm_compute. reflexivity. Qed.

Lemma read_two (n : nat) (rest : string) :
  n < 100 ->
  RefDatetime.read_digits 2 0 (zero_padded 2 n ++ rest) = Some (n, rest).
Proof. apply read_padded_table. vm_compute. reflexivity. Qed.

Lemma make_date_inv (y m d : nat) (dt : date) :
  RefDatetime.make_date y m d = Some dt ->
  dt = mkdate y m d /\ y < 100 * 100 /\ m < 100 /\ d < 100.
Proof.
  unfold RefDatetime.make_date.
  destruct (N.leb_spec (N.of_nat y) 9999) as [Hy|]; cbn [andb]; [| discriminate].
  destruct (1 <=? y)%nat; cbn [andb]; [| discriminate].
  destruct (1 <=? m)%nat; cbn [andb]; [| discriminate].
  destruct (Nat.leb_spec m 12) as [Hm|]; cbn [andb]; [| discriminate].
  destruct (1 <=? d)%nat; cbn [andb]; [| discriminate].
  destruct (Nat.leb_spec d (RefDatetime.days_in_month y m)) as [Hd|];
    [| discriminate].
  intros [= <-]. split; [reflexivity |]. split; [lia |]. split; [lia |].
  assert (RefDatetime.days_in_month y m <= 31); [| lia].
  unfold RefDatetime.days_in_month.
  do 12 (destruct m as [|m]; [try lia; try (destruct (RefDatetime.is_leap y); lia) |]).
  lia.
Qed.

Lemma make_date_valid (y m d : nat) (dt : date) :
  RefDatetime.make_date y m d = Some dt -> valid_date dt.
Proof.
  intros H. destruct (make_date_inv _ _ _ _ H) as [-> _]. exact H.
Qed.

Lemma ref_fromisoformat_valid (s : string) (dt : date) :
  RefDatetime.fromisoformat s = Some dt -> valid_date dt.
Proof.
  unfold RefDatetime.fromisoformat.
  destruct (RefDatetime.read_digits 4 0 s) as [[y s1]|]; [| discriminate].
  destruct (RefDatetime.expect "-" s1) as [s2|]; [| discriminate].
  destruct (RefDatetime.read_digits 2 0 s2) as [[m s3]|]; [| discriminate].
  destruct (RefDatetime.expect "-" s3) as [s4|]; [| discriminate].
  destruct (RefDatetime.read_digits 2 0 s4) as [[d [|c r]]|]; try discriminate.
  apply make_date_valid.
Qed.

Lemma ref_strptime_valid (s fmt : string) (dt : date) :
  RefDatetime.strptime s fmt = Some dt -> valid_date dt.
Proof.
  unfold RefDatetime.strptime.
  destruct (RefDatetime.compile false fmt) as [ds|]; [| discriminate].
  destruct (RefDatetime.run ds _ s) as [[f [|c r]]|]; try discriminate.
  apply make_date_valid.
Qed.

Lemma ref_reads_back (dt : date) :
  valid_date dt -> RefDatetime.fromisoformat (strftime_ymd dt) = Some dt.
Proof.
  intros Hv. destruct (make_date_inv _ _ _ _ Hv) as (_ & Hy & Hm & Hd).
  unfold RefDatetime.fromisoformat, strftime_ymd.
  rewrite (read_year _ _ Hy). cbn [String.append RefDatetime.expect].
  rewrite Ascii.eqb_refl, (read_two _ _ Hm).
  cbn [String.append RefDatetime.expect]. rewrite Ascii.eqb_refl.
  rewrite <- (app_empty_r (zero_padded 2 (day dt))), (read_two _ _ Hd).
  exact Hv.
Qed.

Lemma normalize_date_ignores_time_witness :
  "2025-03-14" <> ""
  /\ Py.contains "T" "2025-03-14" = false
  /\ normalize_date_ref ("2025-03-14" ++ String "T" "09:30:00")
     = normalize_date_ref "2025-03-14"
  /\ normalize_date_ref ("2025-03-14" ++ String "+" "02:00")
     = normalize_date_ref "2025-03-14".
Proof.
  assert (Hne : "2025-03-14" <> "") by discriminate.
  split; [exact Hne |]. split; [reflexivity |].
  split.
  - exact (proj1 (normalize_date_ignores_time RefDatetime.fromisoformat
                    RefDatetime.strptime "2025-03-14" "09:30:00" Hne eq_refl)).
  - exact (proj2 (normalize_date_ignores_time RefDatetime.fromisoformat
                    RefDatetime.strptime "2025-03-14" "02:00" Hne eq_refl)).
Defined.

Lemma not_a_date_unparsed (fmt : string) :
  In fmt formats -> RefDatetime.strptime (Py.strip "not a date") fmt = None.
Proof.
  intros H. cbn in H.
  destruct H as [<- | [<- | [<- | [<- | [<- | []]]]]]; reflexivity.
Defined.

Lemma normalize_date_plain_unchanged_witness :
  "not a date" <> ""
  /\ Py.contains "T" "not a date" = false
  /\ Py.contains "+" "not a date" = false
  /\ RefDatetime.fromisoformat (Py.remove "Z" "not a date") = None
  /\ (forall fmt, In fmt formats ->
        RefDatetime.strptime (Py.strip "not a date") fmt = None)
  /\ normalize_date_ref "not a date" = "not a date".
Proof.
  assert (Hne : "not a date" <> "") by discriminate.
  split; [exact Hne |]. split; [reflexivity |]. split; [reflexivity |].
  split; [reflexivity |]. split; [exact not_a_date_unparsed |].
  exact (normalize_date_plain_unchanged RefDatetime.fromisoformat
           RefDatetime.strptime "not a date" Hne eq_refl eq_refl eq_refl
           not_a_date_unparsed).
Defined.

Lemma normalize_date_idempotent_witness :
  (forall x dt, RefDatetime.fromisoformat x = Some dt ->
                RefDatetime.fromisoformat (strftime_ymd dt) = Some dt)
  /\ (forall x fmt dt, RefDatetime.strptime x fmt = Some dt ->
                       RefDatetime.fromisoformat (strftime_ymd dt) = Some dt)
  /\ normalize_date_ref (normalize_date_ref "14/03/2025")
     = normalize_date_ref "14/03/2025".
Proof.
  assert (H1 : forall x dt, RefDatetime.fromisoformat x = Some dt ->
                 RefDatetime.fromisoformat (strftime_ymd dt) = Some dt)
    by (intros x dt H; exact (ref_reads_back dt (ref_fromisoformat_valid x dt H))).
  assert (H2 : forall x fmt dt, RefDatetime.strptime x fmt = Some dt ->
                 RefDatetime.fromisoformat (strftime_ymd dt) = Some dt)
    by (intros x fmt dt H;
        exact (ref_reads_back dt (ref_strptime_valid x fmt dt H))).
  split; [exact H1 |]. split; [exact H2 |].
  exact (normalize_date_idempotent RefDatetime.fromisoformat
           RefDatetime.strptime "14/03/2025" H1 H2).
Defined.

(** ** The Criteria Filter, further *)

Lemma filter_filter {A} (f g : A -> bool) (l : list A) :
  List.filter g (List.filter f l) = List.filter (fun x => f x && g x) l.
Proof.
  induction l as [|x l IH]; cbn [List.filter]; [reflexivity |].
  destruct (f x); cbn [List.filter andb]; [| exact IH].
  destruct (g x); now rewrite IH.
Qed.

Lemma filter_ext_bool {A} (f g : A -> bool) (l : list A) :
  (forall x, f x = g x) -> List.filter f l = List.filter g l.
Proof.
  intros H. induction l as [|x l IH]; cbn [List.filter]; [reflexivity |].
  now rewrite H, IH.
Qed.

Lemma keeps_app (r1 r2 : list string) (year : Z) (a : Article) :
  keeps (r1 ++ r2) year a = keeps r1 year a && keeps r2 year a.
Proof.
  unfold keeps, all_tags_present. rewrite map_app, forallb_app.
  destruct (Py.truthy (data_publicacao a)); cbn [andb]; [| reflexivity].
  destruct (Py.startswith (data_publicacao a) (Py.str year)); cbn [andb];
    [reflexivity |].
  reflexivity.
Qed.

(** X14: filtering is idempotent: the output of the filter passes the same
    filter whole. *)
Theorem filter_articles_idempotent (articles : list Article)
    (required_tags : list string) (year : Z) :
  filter_articles_by_criteria
    (filter_articles_by_criteria articles required_tags year)
    required_tags year
  = filter_articles_by_criteria articles required_tags year.
Proof.
  rewrite !filter_articles_filter, filter_filter.
  apply filter_ext_bool. intros a. now destruct (keeps required_tags year a).
Qed.

(** X15: requiring two lists of categories at once is filtering by the one
    and then by the other, in either order. *)
Theorem filter_articles_required_app (articles : list Article)
    (r1 r2 : list string) (year : Z) :
  filter_articles_by_criteria articles (r1 ++ r2) year
  = filter_articles_by_criteria
      (filter_articles_by_criteria articles r1 year) r2 year
  /\ filter_articles_by_criteria articles (r1 ++ r2) year
     = filter_articles_by_criteria articles (r2 ++ r1) year.
Proof.
  rewrite !filter_articles_filter, filter_filter. split.
  - apply filter_ext_bool. intros a. apply keeps_app.
  - apply filter_ext_bool. intros a. rewrite !keeps_app. apply andb_comm.
Qed.

(** X16: the empty string is a substring of every string, so a record that
    carries an empty category and passes the year test is kept whatever the
    required categories are. *)
Theorem empty_category_matches_all (articles : list Article) (a : Article)
    (required_tags : list string) (year : Z) :
  In a articles ->
  In "" (tags a) ->
  published_in year a ->
  In a (filter_articles_by_criteria articles required_tags year).
Proof.
  intros Hin Hempty Hyear.
  rewrite filter_articles_filter. apply filter_In. split; [exact Hin |].
  apply keeps_spec. split; [exact Hyear |].
  intros req _. exists "". split; [exact Hempty |].
  right. exists "", (normal_form req). reflexivity.
Qed.

Lemma empty_category_matches_all_witness :
  let a := record_of "2025-06-01" [""] in
  In a [a]
  /\ In "" (tags a)
  /\ published_in 2025 a
  /\ In a (filter_articles_by_criteria [a]
             ["ux-design"; "artificial-intelligence"] 2025).
Proof.
  cbv zeta.
  assert (H1 : In (record_of "2025-06-01" [""]) [record_of "2025-06-01" [""]])
    by (left; reflexivity).
  assert (H2 : In "" (tags (record_of "2025-06-01" [""])))
    by (left; reflexivity).
  assert (H3 : published_in 2025 (record_of "2025-06-01" [""])).
  { split; [discriminate |]. exists "-06-01". reflexivity. }
  split; [exact H1 |]. split; [exact H2 |]. split; [exact H3 |].
  exact (empty_category_matches_all _ _ _ 2025 H1 H2 H3).
Defined.

(** ** Extractor and batch, further *)

Section PipelineMore.
Context {World Page : Type}.
Variable goto : string -> World -> option Page * World.
Variable jsonld : Page -> World -> option Article * World.
Variable html : Page -> World -> option Article * World.

Let extract := extract_article_metadata goto jsonld html.
Let batch := process_articles_batch goto jsonld html.
Let sequence := one_by_one goto jsonld html.

(** X17: the first tier that gives a titled record wins.  A titled record of
    the structured-data tier is returned stamped and the markup tier is not
    consulted; in every other case the result is what the markup tier gives,
    also when that is nothing and the structured-data tier had an untitled
    record; when the page does not load the result is nothing. *)
Theorem extractor_first_titled_wins (target : string) (w : World) :
  let run := extract_article_metadata goto jsonld html target w in
  match goto target w with
  | (Some page, w1) =>
      match jsonld page w1 with
      | (Some m, w2) =>
          if Py.truthy (titulo m)
          then fst (fst run) = Some (stamp target m) /\ snd run = w2
          else fst (fst run) = option_map (stamp target) (fst (html page w2))
               /\ snd run = snd (html page w2)
      | (None, w2) =>
          fst (fst run) = option_map (stamp target) (fst (html page w2))
          /\ snd run = snd (html page w2)
      end
  | (None, w1) => fst (fst run) = None /\ snd run = w1
  end.
Proof.
  cbv zeta. rewrite extract_run.
  destruct (goto target w) as [[page|] w1]; [| split; reflexivity].
  destruct (jsonld page w1) as [[m|] w2]; cbn [needs_fallback].
  - destruct (Py.truthy (titulo m)); cbn [negb].
    + split; reflexivity.
    + destruct (html page w2) as [m' w3]. split; reflexivity.
  - destruct (html page w2) as [m' w3]. split; reflexivity.
Qed.

Lemma extract_result_stamped (target : string) (w : World) (a : Article) :
  fst (fst (extract target w)) = Some a ->
  fonte a = "medium" /\ url a = target.
Proof.
  unfold extract. rewrite extract_run.
  destruct (goto target w) as [[page|] w1]; [| discriminate].
  destruct (jsonld page w1) as [metadata w2].
  destruct (needs_fallback metadata).
  - destruct (html page w2) as [[m|] w3]; [| discriminate].
    intros [= <-]. split; reflexivity.
  - destruct metadata as [m|]; [| discriminate].
    intros [= <-]. split; reflexivity.
Qed.

Lemma one_by_one_stamped (urls : list string) (w : World) :
  Forall (fun e => match e with
                   | EvExtract target _ (Some a) =>
                       In target urls /\ fonte a = "medium" /\ url a = target
                   | EvExtract target _ None => In target urls
                   | EvSleep _ => False
                   end) (fst (sequence urls w)).
Proof.
  revert w. induction urls as [|target rest IH]; intros w; [constructor |].
  unfold sequence in *. cbn [one_by_one].
  pose proof (extract_result_stamped target w) as Hst. unfold extract in Hst.
  destruct (extract_article_metadata goto jsonld html target w)
    as [[result inner] w1].
  specialize (IH w1). destruct (one_by_one goto jsonld html rest w1) as [ev w2].
  cbn [fst] in *. constructor.
  - destruct result as [a|]; [| now left].
    destruct (Hst a eq_refl) as [Hf Hu]. split; [now left | now split].
  - eapply List.Forall_impl; [| exact IH].
    intros [t i [a|] | ms]; cbn; [| | tauto].
    + intros (Hin & Hf & Hu). split; [now right | now split].
    + intros Hin. now right.
Qed.

Lemma usable_records_forall (P : Article -> Prop) (events : list BatchEvent) :
  Forall (fun e => match e with
                   | EvExtract _ _ (Some a) => P a
                   | _ => True
                   end) events ->
  Forall (fun a => titulo a <> "" /\ P a)
         (usable_records (flat_map outcome_of events)).
Proof.
  induction 1 as [|e events He _ IH]; [constructor |].
  destruct e as [t i [a|] | ms]; cbn [flat_map outcome_of app usable_records];
    try exact IH.
  destruct (Py.truthy (titulo a)) eqn:Ht; [| exact IH].
  constructor; [| exact IH]. split; [now apply truthy_spec | exact He].
Qed.

Lemma usable_records_bound (outcomes : list (option Article)) :
  length (usable_records outcomes) <= length outcomes.
Proof.
  induction outcomes as [|[m|] r IH]; cbn [usable_records length]; [lia | | lia].
  destruct (Py.truthy (titulo m)); cbn [length]; lia.
Qed.

Lemma outcomes_length (events : list BatchEvent) :
  length (flat_map outcome_of events) <= length events.
Proof.
  induction events as [|[t i r | ms] ev IH]; cbn [flat_map outcome_of app length];
    lia.
Qed.

(** X18: every record the batch returns has a title, carries the origin tag
    and is stamped with one of the input references; the batch returns no
    more records than it was given references. *)
Theorem batch_output_invariant (urls : list string) (delay_between : N)
    (w : World) :
  let results :=
    fst (fst (process_articles_batch goto jsonld html urls delay_between w)) in
  Forall (fun a => titulo a <> "" /\ fonte a = "medium" /\ In (url a) urls)
         results
  /\ length results <= length urls.
Proof.
  cbv zeta. unfold process_articles_batch.
  rewrite (batch_loop_run goto jsonld html (length urls) delay_between urls 1 []
             w eq_refl).
  cbv zeta. cbn [fst app]. split.
  - apply (usable_records_forall
             (fun a => fonte a = "medium" /\ In (url a) urls)).
    eapply List.Forall_impl; [| apply one_by_one_stamped].
    intros [t i [a|] | ms]; cbn; try tauto.
    intros (Hin & Hf & Hu). split; [exact Hf | now rewrite Hu].
  - etransitivity; [apply usable_records_bound |].
    etransitivity; [apply outcomes_length |].
    now rewrite (one_by_one_length goto jsonld html).
Qed.

End PipelineMore.

(** ** The structured-data tier *)

Section JsonLdFacts.
Variable fromisoformat : string -> option date.
Variable strptime : string -> string -> option date.
Variable json_loads : string -> option JSON.
Variable repr : JSON -> string.


Lemma scan_items_raises (others more : list JSON) (v : JSON) :
  Forall other_object others ->
  is_object v = false ->
  scan_items fromisoformat strptime repr (others ++ v :: more) = Raised.
Proof.
  induction 1 as [|o others Ho _ IH]; intros Hv.
  - destruct v; try reflexivity. discriminate.
  - destruct Ho as (d & -> & Ht). cbn [app scan_items]. rewrite Ht.
    now apply IH.
Qed.

(** X20: one block can hide every later one.  When a block is valid JSON
    but neither a list nor an object, or is a list in which an item that is
    no object comes before any article, the tier gives nothing, whatever
    the blocks after it hold. *)
Theorem jsonld_block_hides_rest (block : string) (rest : list string)
    (data : JSON) :
  json_loads block = Some data ->
  (is_container data = false
   \/ exists others v more,
        data = JList (others ++ v :: more)
        /\ Forall other_object others /\ is_object v = false) ->
  _extract_from_jsonld fromisoformat strptime json_loads repr (block :: rest)
  = None.
Proof.
  intros Hload Hshape. cbn [_extract_from_jsonld]. rewrite Hload.
  destruct Hshape as [Hc | (others & v & more & -> & Ho & Hv)].
  - destruct data; try discriminate; reflexivity.
  - cbn [scan_block]. now rewrite scan_items_raises.
Qed.

(** X21: the parse of an article object fails exactly when its
    [datePublished] is a true value that is no string; otherwise it gives a
    record with the origin tag, an empty reference, the headline (the name
    when there is no headline) as title, and as date the normalized
    [datePublished] when that is a non-empty string, the empty string when it
    is absent or false. *)
Theorem parse_jsonld_article_outcome (data : list (string * JSON)) :
  (_parse_jsonld_article fromisoformat strptime repr data = None
   <-> exists v, Json.get data "datePublished" = Some v
                 /\ Json.truthy v = true /\ is_string v = false)
  /\ match _parse_jsonld_article fromisoformat strptime repr data with
     | Some m =>
         md_fonte m = "medium" /\ md_url m = ""
         /\ md_titulo m
            = match Json.get data "headline", Json.get data "name" with
              | Some h, _ => h
              | None, Some n => n
              | None, None => JStr ""
              end
         /\ md_data_publicacao m
            = match Json.get data "datePublished" with
              | Some (JStr s) => _normalize_date fromisoformat strptime s
              | _ => ""
              end
     | None => True
     end.
Proof.
  assert (Htitle : forall (h n : option JSON),
            match h with
            | Some v => v
            | None => match n with Some v => v | None => JStr "" end
            end
            = match h, n with
              | Some h', _ => h'
              | None, Some n' => n'
              | None, None => JStr ""
              end)
    by (intros [h|] [n|]; reflexivity).
  unfold _parse_jsonld_article, Json.get_default, date_of.
  destruct (Json.get data "datePublished") as [v|] eqn:Hd.
  - destruct (Json.truthy v) eqn:Ht.
    + destruct (is_string v) eqn:Hs.
      * destruct v as [| b | z sh | s | items | members]; try discriminate Hs.
        split.
        -- split; [discriminate |].
           intros (v & [= <-] & _ & Hv). discriminate.
        -- cbn [md_fonte md_url md_titulo md_data_publicacao].
           split; [reflexivity |]. split; [reflexivity |].
           split; [apply Htitle | reflexivity].
      * assert (E : match v with
                    | JStr s => Some (_normalize_date fromisoformat strptime s)
                    | _ => None
                    end = None)
          by (destruct v; try reflexivity; discriminate Hs).
        rewrite E. split; [| exact I].
        split; [intros _ | reflexivity].
        exists v. split; [reflexivity | now split].
    + split.
      * split; [discriminate |].
        intros (v' & [= <-] & Ht' & _). congruence.
      * cbn [md_fonte md_url md_titulo md_data_publicacao].
        split; [reflexivity |]. split; [reflexivity |].
        split; [apply Htitle |].
        destruct v as [| b | z sh | s | items | members]; try reflexivity.
        cbn [Json.truthy] in Ht.
        unfold _normalize_date. now rewrite Ht.
  - cbn [Json.truthy Py.truthy String.eqb negb]. split.
    + split; [discriminate |]. intros (v & Hv & _). discriminate.
    + cbn [md_fonte md_url md_titulo md_data_publicacao].
      split; [reflexivity |]. split; [reflexivity |].
      split; [apply Htitle | reflexivity].
Qed.

End JsonLdFacts.

Lemma py_split_not_empty (sep : ascii) (s : string) : py_split sep s <> [].
Proof.
  destruct s as [|c r]; cbn [py_split]; [discriminate |].
  destruct (Ascii.eqb c sep); [discriminate |].
  destruct (py_split sep r); discriminate.
Qed.

Lemma py_split_length (sep : ascii) (s : string) :
  length (py_split sep s) = S (count_char sep s).
Proof.
  induction s as [|c r IH]; [reflexivity |].
  cbn [py_split count_char].
  destruct (Ascii.eqb c sep); cbn [length Nat.add]; [now rewrite IH |].
  destruct (py_split sep r) eqn:E; [now destruct (py_split_not_empty sep r) |].
  cbn [length] in *. exact IH.
Qed.

Lemma py_join_split (sep : ascii) (s : string) :
  py_join sep (py_split sep s) = s.
Proof.
  induction s as [|c r IH]; [reflexivity |].
  cbn [py_split].
  destruct (Ascii.eqb_spec c sep) as [-> | Hne].
  - cbn [py_join].
    destruct (py_split sep r) eqn:E; [now destruct (py_split_not_empty sep r) |].
    cbn [String.append]. now rewrite IH.
  - destruct (py_split sep r) as [|h t] eqn:E;
      [now destruct (py_split_not_empty sep r) |].
    cbn [py_join] in *. destruct t; cbn [String.append]; now rewrite <- IH.
Qed.

Lemma py_split_whole (sep : ascii) (s : string) :
  count_char sep s = 0 -> py_split sep s = [s].
Proof.
  induction s as [|c r IH]; [reflexivity |].
  cbn [py_split count_char].
  destruct (Ascii.eqb c sep); [discriminate |].
  cbn [Nat.add]. intros H. now rewrite (IH H).
Qed.

(** X22: a [keywords] string always gives tags, one more than it has
    commas, which joined by commas were the string; so an empty or blank
    [keywords] string gives the one empty tag. *)
Theorem keywords_string_tags (s : string) :
  length (tags_of (Some (JStr s))) = S (count_char "," s)
  /\ tags_of (Some (JStr s)) = map (fun k => JStr (Py.strip k)) (py_split "," s)
  /\ py_join "," (py_split "," s) = s
  /\ (count_char "," s = 0 -> Py.strip s = "" ->
      tags_of (Some (JStr s)) = [JStr ""]).
Proof.
  cbn [tags_of]. rewrite length_map, py_split_length, py_join_split.
  repeat split.
  intros Hc Hs. rewrite (py_split_whole _ _ Hc). cbn [map]. now rewrite Hs.
Qed.



Lemma jsonld_block_hides_rest_witness :
  sample_loads "five" = Some (JNum false "5")
  /\ (is_container (JNum false "5") = false
      \/ exists others v more,
           JNum false "5" = JList (others ++ v :: more)
           /\ Forall other_object others /\ is_object v = false)
  /\ _extract_from_jsonld RefDatetime.fromisoformat RefDatetime.strptime
       sample_loads sample_repr ["five"; "article"] = None.
Proof.
  split; [reflexivity |]. split; [left; reflexivity |].
  exact (jsonld_block_hides_rest RefDatetime.fromisoformat RefDatetime.strptime
           sample_loads sample_repr "five" ["article"] _ eq_refl
           (or_introl eq_refl)).
Defined.

(** ** The markup tier *)

Lemma truthy_false (s : string) : Py.truthy s = false -> s = "".
Proof.
  intros H. destruct (String.eqb_spec s "") as [E|E]; [exact E |].
  apply truthy_spec in E. congruence.
Qed.

Lemma first_text_find (page : Dom) (selectors : list string) :
  first_text page selectors ""
  = match first_filled (content_at page) selectors with
    | Some selector => content_at page selector
    | None => ""
    end.
Proof.
  unfold first_filled.
  induction selectors as [|selector rest IH]; [reflexivity |].
  cbn [first_text List.find].
  change (content_at page selector)
    with (match query_selector page selector with
          | Some element => text_value selector element
          | None => ""
          end).
  destruct (query_selector page selector) as [element|] eqn:Hq.
  - cbv zeta. destruct (Py.truthy (text_value selector element)) eqn:Ht.
    + unfold content_at. now rewrite Hq.
    + rewrite (truthy_false _ Ht). exact IH.
  - cbn [Py.truthy String.eqb negb]. exact IH.
Qed.

Lemma find_filled_some (read : string -> string) (selectors : list string) :
  (exists selector, In selector selectors /\ read selector <> "")
  <-> exists selector, first_filled read selectors = Some selector.
Proof.
  unfold first_filled. split.
  - intros (selector & Hin & Hne).
    destruct (List.find _ selectors) as [found|] eqn:E; [now exists found |].
    apply truthy_spec in Hne.
    pose proof (find_none _ _ E selector Hin) as Hf. cbv beta in Hf. congruence.
  - intros (selector & Hf). apply find_some in Hf as [Hin Ht].
    exists selector. split; [exact Hin | now apply truthy_spec].
Qed.

Section HtmlFacts.
Variable fromisoformat : string -> option date.
Variable strptime : string -> string -> option date.

Let html := _extract_from_html fromisoformat strptime.

(** X23: title and author are read at the first selector of their list, in
    order, that gives a non-empty text (the [content] attribute for a [meta]
    selector, the inner text otherwise); they are empty exactly when no
    selector of the list gives one. *)
Theorem html_title_and_author (page : Dom) :
  titulo (_extract_from_html fromisoformat strptime page)
  = match first_filled (content_at page) title_selectors with
    | Some selector => content_at page selector
    | None => ""
    end
  /\ autor (_extract_from_html fromisoformat strptime page)
     = match first_filled (content_at page) author_selectors with
       | Some selector => content_at page selector
       | None => ""
       end
  /\ (titulo (_extract_from_html fromisoformat strptime page) <> ""
      <-> exists selector, In selector title_selectors
                           /\ content_at page selector <> "").
Proof.
  cbn [titulo autor _extract_from_html]. rewrite !first_text_find.
  split; [reflexivity |]. split; [reflexivity |].
  rewrite find_filled_some.
  destruct (first_filled (content_at page) title_selectors) as [sel|] eqn:E.
  - split; [intros _; now exists sel |]. intros _.
    unfold first_filled in E. apply find_some in E as [_ Ht].
    now apply truthy_spec.
  - split; [intros H; now contradict H | intros (sel & H); discriminate].
Qed.

Lemma first_date_find (page : Dom) (selectors : list string) :
  first_date fromisoformat strptime page selectors ""
  = match first_filled (date_at page) selectors with
    | Some selector =>
        _normalize_date fromisoformat strptime (date_at page selector)
    | None => ""
    end.
Proof.
  unfold first_filled.
  induction selectors as [|selector rest IH]; [reflexivity |].
  cbn [first_date List.find].
  change (date_at page selector)
    with (match query_selector page selector with
          | Some element => or_empty (date_value selector element)
          | None => ""
          end).
  destruct (query_selector page selector) as [element|] eqn:Hq.
  - destruct (date_value selector element) as [d|] eqn:Hd; cbn [or_empty].
    + destruct (Py.truthy d); [| exact IH].
      unfold date_at. now rewrite Hq, Hd.
    + cbn [Py.truthy String.eqb negb]. exact IH.
  - cbn [Py.truthy String.eqb negb]. exact IH.
Qed.

(** X24: the date is the normalized attribute of the first date selector, in
    order, whose attribute is not empty, and no later selector is consulted,
    also when that attribute normalizes to the empty string; the date is
    empty when no selector has a non-empty attribute. *)
Theorem html_date_first_attribute (page : Dom) :
  data_publicacao (_extract_from_html fromisoformat strptime page)
  = match first_filled (date_at page) date_selectors with
    | Some selector =>
        _normalize_date fromisoformat strptime (date_at page selector)
    | None => ""
    end.
Proof. cbn [data_publicacao _extract_from_html]. apply first_date_find. Qed.

Lemma fold_add_tag_elem (tag_elements : list Element) (tags0 : gset string)
    (x : string) :
  x ∈ fold_left add_tag tag_elements tags0
  <-> x ∈ tags0
      \/ exists tag_el, In tag_el tag_elements /\ inner_text tag_el <> ""
                        /\ x = Py.lower (Py.strip (inner_text tag_el)).
Proof.
  revert tags0. induction tag_elements as [|el rest IH]; intros tags0;
    cbn [fold_left].
  - split; [tauto | intros [H | (e & [] & _)]; exact H].
  - rewrite IH. unfold add_tag at 1.
    destruct (Py.truthy (inner_text el)) eqn:Ht.
    + apply truthy_spec in Ht. rewrite elem_of_union, elem_of_singleton. split.
      * intros [[H | ->] | (e & Hin & H)].
        -- now left.
        -- right. exists el. split; [now left | now split].
        -- right. exists e. split; [now right | exact H].
      * intros [H | (e & [<- | Hin] & Hne & ->)].
        -- left. now left.
        -- left. now right.
        -- right. exists e. split; [exact Hin | now split].
    + apply truthy_false in Ht. split.
      * intros [H | (e & Hin & H)]; [now left |].
        right. exists e. split; [now right | exact H].
      * intros [H | (e & [<- | Hin] & Hne & Hx)]; [now left | congruence |].
        right. exists e. split; [exact Hin | now split].
Qed.

(** X25: the tags of the markup tier are, without repetition, the
    lower-cased, stripped texts of the tag links whose text is not empty; a
    link whose text is blank therefore gives the empty tag. *)
Theorem html_tags (page : Dom) (x : string) :
  (In x (tags (_extract_from_html fromisoformat strptime page))
   <-> exists tag_el,
         In tag_el (query_selector_all page tag_selector)
         /\ inner_text tag_el <> ""
         /\ x = Py.lower (Py.strip (inner_text tag_el)))
  /\ List.NoDup (tags (_extract_from_html fromisoformat strptime page)).
Proof.
  cbn [tags _extract_from_html]. split.
  - rewrite <- list_elem_of_In, elem_of_elements, fold_add_tag_elem.
    split; [intros [H | H]; [set_solver | exact H] | now right].
  - apply NoDup_ListNoDup, NoDup_elements.
Qed.

(** X26: a tag link with a blank text makes the record of the markup tier
    pass every category requirement: with a date of the target year the
    record is kept by the filter whatever the required categories are. *)
Theorem blank_tag_link_passes_filter (page : Dom) (tag_el : Element)
    (target : string) (required_tags : list string) (year : Z) :
  In tag_el (query_selector_all page tag_selector) ->
  inner_text tag_el <> "" ->
  Py.strip (inner_text tag_el) = "" ->
  published_in year (_extract_from_html fromisoformat strptime page) ->
  filter_articles_by_criteria
    [stamp target (_extract_from_html fromisoformat strptime page)]
    required_tags year
  = [stamp target (_extract_from_html fromisoformat strptime page)].
Proof.
  intros Hin Hne Hblank Hyear.
  rewrite filter_articles_filter. cbn [List.filter].
  assert (Hk : keeps required_tags year
                 (stamp target (_extract_from_html fromisoformat strptime page))
               = true).
  { apply keeps_spec. split; [exact Hyear |].
    intros req _. exists "". split.
    - cbn [tags stamp _extract_from_html].
      rewrite <- list_elem_of_In, elem_of_elements, fold_add_tag_elem.
      right. exists tag_el. split; [exact Hin |]. split; [exact Hne |].
      now rewrite Hblank.
    - right. exists "", (normal_form req). reflexivity. }
  now rewrite Hk.
Qed.

End HtmlFacts.

Lemma blank_tag_link_passes_filter_witness :
  let el := {| inner_text := "  "; attributes := [] |} in
  let record :=
    _extract_from_html RefDatetime.fromisoformat RefDatetime.strptime
                       blank_tag_page in
  In el (query_selector_all blank_tag_page tag_selector)
  /\ inner_text el <> ""
  /\ Py.strip (inner_text el) = ""
  /\ published_in 2025 record
  /\ filter_articles_by_criteria [stamp ref_A record]
       ["ux-design"; "artificial-intelligence"] 2025
     = [stamp ref_A record].
Proof.
  cbv zeta.
  assert (H1 : In {| inner_text := "  "; attributes := [] |}
                  (query_selector_all blank_tag_page tag_selector))
    by (left; reflexivity).
  assert (H2 : inner_text {| inner_text := "  "; attributes := [] |} <> "")
    by discriminate.
  assert (H3 : Py.strip (inner_text {| inner_text := "  "; attributes := [] |})
               = "") by reflexivity.
  assert (H4 : published_in 2025
                 (_extract_from_html RefDatetime.fromisoformat
                    RefDatetime.strptime blank_tag_page)).
  { split; [discriminate |]. exists "-05-02". reflexivity. }
  split; [exact H1 |]. split; [exact H2 |]. split; [exact H3 |].
  split; [exact H4 |].
  exact (blank_tag_link_passes_filter RefDatetime.fromisoformat
           RefDatetime.strptime blank_tag_page _ ref_A _ 2025 H1 H2 H3 H4).
Defined.
